(** * Mental Health Chat Analyzer: the text-scoring engine of [app.py]

    A shallow embedding of [MentalHealthAnalyzer] (keyword lists,
    [safe_tokenize], [analyze_text], [get_severity],
    [find_concerning_phrases], [get_overall_assessment]), of the user
    registry ([hash_password], [create_user], [verify_user]), of the pages
    ([show_auth_page], the buttons of [main]), of [get_severity_emoji], the
    two charts and the three reports (history panel, text report,
    [export_results_pdf]), followed by their properties.

    Conventions of the embedding.
    - A Python [str] is a [string]; a character is read as the code point of
      the same number (U+0000 to U+00FF).  [str.lower], [str.strip], [in],
      [re.split] and [re.findall] are written out on that range.
    - A Python [float] score is a rational [Q]; the literals 0.1, 0.3, ... are
      the rationals of the same decimal expansion.  Where the rounding of
      the machine decides, module [F64] has the same arithmetic on IEEE 754
      binary64 values, with the records and the history built on it.
    - A call that can raise returns an [outcome]; the NLTK collaborators
      ([sent_tokenize], [word_tokenize], [SentimentIntensityAnalyzer]) are
      variables of the section, each of them allowed to raise.
    - The SHA-256 digest, the two-decimal formatting of a float and the
      rendering of the PDF are variables too; a figure is the record of the
      arguments given to Plotly, a PDF the list of the calls made on it.
    - [st.session_state] is a record passed from one run of the script to
      the next; [users_db] is an association list in insertion order. *)

From Stdlib Require Import Bool Arith List Lia ZArith QArith Qminmax Lqa.
From Stdlib Require Import Ascii String DecimalString.
From Stdlib Require SpecFloat.
Import ListNotations.

Open Scope string_scope.
Open Scope list_scope.
Open Scope nat_scope.

(** ** Python built-ins on strings *)

Module Py.

(** [c.isspace()] for the code points below 256. *)
Definition isspace (c : ascii) : bool :=
  let n := nat_of_ascii c in
  ((9 <=? n) && (n <=? 13)) || ((28 <=? n) && (n <=? 32))
  || (n =? 133) || (n =? 160).

(** [c.lower()] for the code points below 256: A-Z and the Latin-1 capitals
    (U+00C0 to U+00DE without the multiplication sign U+00D7) move up by 32. *)
Definition lower_char (c : ascii) : ascii :=
  let n := nat_of_ascii c in
  if ((65 <=? n) && (n <=? 90))
     || ((192 <=? n) && (n <=? 222) && negb (n =? 215))
  then ascii_of_nat (n + 32) else c.

(** [s.lower()] *)
Fixpoint lower (s : string) : string :=
  match s with
  | EmptyString => EmptyString
  | String c rest => String (lower_char c) (lower rest)
  end.

(** [s.lstrip()] *)
Fixpoint lstrip (s : string) : string :=
  match s with
  | EmptyString => EmptyString
  | String c rest => if isspace c then lstrip rest else s
  end.

(** [s.rstrip()] *)
Fixpoint rstrip (s : string) : string :=
  match s with
  | EmptyString => EmptyString
  | String c rest =>
      match rstrip rest with
      | EmptyString => if isspace c then EmptyString else String c EmptyString
      | kept => String c kept
      end
  end.

(** [s.strip()] *)
Definition strip (s : string) : string := rstrip (lstrip s).

(** Whitespace-only strings, the empty one included. *)
Fixpoint blank (s : string) : bool :=
  match s with
  | EmptyString => true
  | String c rest => isspace c && blank rest
  end.

(** Truth value of a string: [if s:] holds for the non-empty ones. *)
Definition truthy (s : string) : bool :=
  match s with EmptyString => false | String _ _ => true end.

(** [keyword in text]: [keyword] occurs in [text] as a contiguous run. *)
Fixpoint contains (keyword text : string) : bool :=
  match text with
  | EmptyString => prefix keyword EmptyString
  | String _ rest => prefix keyword text || contains keyword rest
  end.

(** The character class [[.!?]] of the fallback sentence splitter. *)
Definition is_terminator (c : ascii) : bool :=
  let n := nat_of_ascii c in (n =? 46) || (n =? 33) || (n =? 63).

(** [re.split(r'[.!?]+', s)]: the pieces between maximal runs of
    terminators; [cur] is the piece being read, [in_run] tells
    that the previous character was a terminator. *)
Fixpoint re_split_from (cur : string) (in_run : bool) (s : string)
  : list string :=
  match s with
  | EmptyString => [cur]
  | String c rest =>
      if is_terminator c
      then if in_run then re_split_from cur true rest
           else cur :: re_split_from EmptyString true rest
      else re_split_from (cur ++ String c EmptyString) false rest
  end.

Definition re_split_terminators (s : string) : list string :=
  re_split_from EmptyString false s.

(** The class [\w] for the code points below 256: digits, letters, the
    underscore, and the Latin-1 letters and numerals. *)
Definition is_word_char (c : ascii) : bool :=
  let n := nat_of_ascii c in
  ((48 <=? n) && (n <=? 57)) || ((65 <=? n) && (n <=? 90)) || (n =? 95)
  || ((97 <=? n) && (n <=? 122))
  || (n =? 170) || (n =? 178) || (n =? 179) || (n =? 181) || (n =? 185)
  || (n =? 186) || ((188 <=? n) && (n <=? 190))
  || ((192 <=? n) && (n <=? 214)) || ((216 <=? n) && (n <=? 246))
  || (248 <=? n).

(** [re.findall(r'\b\w+\b', s)]: the maximal runs of word characters;
    [cur] is the run being read. *)
Fixpoint re_findall_from (cur : string) (s : string) : list string :=
  match s with
  | EmptyString => if truthy cur then [cur] else []
  | String c rest =>
      if is_word_char c
      then re_findall_from (cur ++ String c EmptyString) rest
      else if truthy cur then cur :: re_findall_from EmptyString rest
           else re_findall_from EmptyString rest
  end.

Definition re_findall_words (s : string) : list string :=
  re_findall_from EmptyString s.

(** [max(a, b)] and [min(a, b)] keep the first argument unless the second
    is strictly better. *)
Definition Qlt_bool (x y : Q) : bool := negb (Qle_bool y x).

Definition max (a b : Q) : Q := if Qlt_bool a b then b else a.
Definition min (a b : Q) : Q := if Qlt_bool b a then b else a.

(** A call either returns a value or raises. *)
Inductive outcome (A : Type) : Type :=
| Returned (a : A)
| Raised.

Arguments Returned {A} a.
Arguments Raised {A}.

End Py.

Import Py.

(** ** Data model: the dictionaries built by [analyze_text] *)

(** The [polarity_scores] dictionary of the sentiment analyzer. *)
Record SentimentScores : Type := {
  compound : Q;
  neg : Q;
  neu : Q;
  pos : Q
}.

(** The per-category dictionary [{'score', 'severity', 'count'}]. *)
Record CategoryResult : Type := {
  score : Q;
  severity : string;
  count : nat
}.

(** An entry of [highlighted_phrases]: [{'phrase', 'type', 'keyword'}]. *)
Record ConcerningPhrase : Type := {
  phrase : string;
  type : string;
  keyword : string
}.

(** The dictionary returned by [analyze_text]. *)
Record AnalysisRecord : Type := {
  timestamp : string;
  text : string;
  sentiment : SentimentScores;
  depression : CategoryResult;
  anxiety : CategoryResult;
  stress : CategoryResult;
  positive : CategoryResult;
  highlighted_phrases : list ConcerningPhrase;
  overall_assessment : string;
  overall_score : Q
}.

(** ** [MentalHealthAnalyzer.__init__]: the keyword lists *)

Definition depression_keywords : list string := [
  "depressed"; "sad"; "hopeless"; "worthless"; "empty"; "numb";
  "lonely"; "isolated"; "tired"; "exhausted"; "sleep"; "insomnia";
  "cry"; "crying"; "tears"; "suicide"; "kill myself"; "end it all";
  "no point"; "give up"; "can't go on"; "hate myself"; "failure";
  "disappointed"; "regret"; "guilty"; "shame"; "burden"
].

Definition anxiety_keywords : list string := [
  "anxious"; "worried"; "nervous"; "panic"; "fear"; "scared";
  "overwhelmed"; "stressed"; "tension"; "restless"; "uneasy";
  "paranoid"; "worried"; "concern"; "afraid"; "terrified";
  "heart racing"; "can't breathe"; "sweating"; "trembling";
  "what if"; "catastrophe"; "disaster"; "danger"
].

Definition stress_keywords : list string := [
  "stress"; "pressure"; "overwhelmed"; "burden"; "too much";
  "can't handle"; "breaking point"; "exhausted"; "burned out";
  "deadline"; "rushed"; "hurry"; "chaos"; "hectic"; "frantic";
  "struggling"; "difficult"; "hard"; "challenging"; "demanding"
].

Definition positive_keywords : list string := [
  "happy"; "joy"; "excited"; "grateful"; "blessed"; "amazing";
  "wonderful"; "great"; "fantastic"; "love"; "peaceful"; "calm";
  "relaxed"; "confident"; "proud"; "accomplished"; "successful";
  "optimistic"; "hopeful"; "content"; "satisfied"; "fulfilled"
].

(** ** The parts of [analyze_text] that call no collaborator *)

(** [sum(1 for word in keywords if word in text.lower())] *)
Fixpoint keyword_count (keywords : list string) (text : string) : nat :=
  match keywords with
  | [] => 0
  | word :: rest =>
      (if contains word (lower text) then 1 else 0) + keyword_count rest text
  end.

(** [min(count / max(total_words * 0.1, 1), 1)], the expression of the four
    score assignments. *)
Definition severity_score (count total_words : nat) : Q :=
  Py.min (inject_Z (Z.of_nat count)
          / Py.max (inject_Z (Z.of_nat total_words) * 0.1) 1) 1.

(** The inner function [get_severity]. *)
Definition get_severity (score : Q) : string :=
  if Qle_bool 0.3 score then "High"
  else if Qle_bool 0.15 score then "Moderate"
  else if Qle_bool 0.05 score then "Mild"
  else "Low".

Definition get_overall_assessment (negative_score positive_score : Q)
  : string :=
  if Qle_bool 0.3 negative_score then
    if Qle_bool 0.2 positive_score
    then "Mixed emotions with significant concerns - consider professional support"
    else "High concern detected - strongly recommend professional help"
  else if Qle_bool 0.15 negative_score then
    if Qle_bool 0.3 positive_score
    then "Moderate concerns with positive elements - monitor closely"
    else "Moderate concern - consider speaking with someone"
  else if Qle_bool 0.05 negative_score then
    "Mild concerns detected - practice self-care"
  else
    if Qle_bool 0.2 positive_score
    then "Positive mental state - keep up the good work!"
    else "Neutral state - maintain healthy habits".

(** One keyword loop of [find_concerning_phrases]:
    [for keyword in keywords: if keyword in sentence_lower: append; break].
    The [break] leaves this loop only. *)
Fixpoint scan_keywords (type : string) (keywords : list string)
    (sentence sentence_lower : string) (phrases : list ConcerningPhrase)
  : list ConcerningPhrase :=
  match keywords with
  | [] => phrases
  | keyword :: rest =>
      if contains keyword sentence_lower
      then phrases ++ [{| phrase := strip sentence;
                          type := type;
                          keyword := keyword |}]
      else scan_keywords type rest sentence sentence_lower phrases
  end.

(** The body of [for sentence in sentences]: the three keyword loops, one
    after the other, on the same [phrases] list. *)
Definition scan_sentence (phrases : list ConcerningPhrase) (sentence : string)
  : list ConcerningPhrase :=
  let sentence_lower := lower sentence in
  let phrases :=
    scan_keywords "depression" depression_keywords sentence sentence_lower
      phrases in
  let phrases :=
    scan_keywords "anxiety" anxiety_keywords sentence sentence_lower
      phrases in
  scan_keywords "stress" stress_keywords sentence sentence_lower phrases.

(** The sentiment dictionary used when the analyzer raises. *)
Definition neutral_sentiment : SentimentScores :=
  {| compound := 0; neg := 0; neu := 1; pos := 0 |}.

(** The [except] branch of [safe_tokenize]. *)
Definition fallback_tokenize (text : string) : list string * list string :=
  let sentences := re_split_terminators (lower text) in
  let sentences :=
    map strip (filter (fun s => truthy (strip s)) sentences) in
  let words := re_findall_words (lower text) in
  (sentences, words).

(** ** Sample collaborators *)

(** The tokenizer data is missing: every call raises. *)
Definition unavailable {A : Type} (_ : string) : outcome A := Raised.

(** A sentence tokenizer that finds one sentence, the whole text. *)
Definition one_sentence (t : string) : outcome (list string) :=
  Returned [t].

(** A word tokenizer that agrees with the fallback. *)
Definition regex_words (t : string) : outcome (list string) :=
  Returned (re_findall_words t).

(** A sentiment analyzer with a constant answer. *)
Definition flat_sentiment (_ : string) : outcome SentimentScores :=
  Returned {| compound := 0.5; neg := 0; neu := 0.5; pos := 0.5 |}.

(** A stand-in for the digest in examples: it marks the password. *)
Definition toy_digest (s : string) : string := ("sha:" ++ s)%string.

(** A stand-in for the two-decimal formatting in examples. *)
Definition toy_format (q : Q) : string :=
  if Qle_bool 0.5 q then "high" else "low".

(** ** The analyzer and its caller *)

Section Analyzer.

(** [self.sia.polarity_scores], [sent_tokenize] and [word_tokenize]. *)
Variable polarity_scores : string -> outcome SentimentScores.
Variable sent_tokenize : string -> outcome (list string).
Variable word_tokenize : string -> outcome (list string).

Definition safe_tokenize (text : string) : list string * list string :=
  match sent_tokenize (lower text) with
  | Returned sentences =>
      match word_tokenize (lower text) with
      | Returned words => (sentences, words)
      | Raised => fallback_tokenize text
      end
  | Raised => fallback_tokenize text
  end.

Definition find_concerning_phrases (text : string)
  : outcome (list ConcerningPhrase) :=
  match sent_tokenize text with
  | Raised => Raised
  | Returned sentences => Returned (fold_left scan_sentence sentences [])
  end.

(** [analyze_text(text)]; [now] is the reading of the clock.  [None] is the
    early [return None]. *)
Definition analyze_text (text now : string) : outcome (option AnalysisRecord) :=
  if negb (truthy (strip text)) then Returned None
  else
    let sentiment_scores :=
      match polarity_scores text with
      | Returned scores => scores
      | Raised => neutral_sentiment
      end in
    let '(sentences, words) := safe_tokenize text in
    let depression_count := keyword_count depression_keywords text in
    let anxiety_count := keyword_count anxiety_keywords text in
    let stress_count := keyword_count stress_keywords text in
    let positive_count := keyword_count positive_keywords text in
    let total_words := List.length words in
    let depression_score := severity_score depression_count total_words in
    let anxiety_score := severity_score anxiety_count total_words in
    let stress_score := severity_score stress_count total_words in
    let positive_score := severity_score positive_count total_words in
    match find_concerning_phrases text with
    | Raised => Raised
    | Returned highlighted_phrases =>
        let overall_score :=
          ((depression_score + anxiety_score + stress_score) / 3)%Q in
        let overall_assessment :=
          get_overall_assessment overall_score positive_score in
        Returned (Some {|
          timestamp := now;
          text := text;
          sentiment := sentiment_scores;
          depression := {| score := depression_score;
                           severity := get_severity depression_score;
                           count := depression_count |};
          anxiety := {| score := anxiety_score;
                        severity := get_severity anxiety_score;
                        count := anxiety_count |};
          stress := {| score := stress_score;
                       severity := get_severity stress_score;
                       count := stress_count |};
          positive := {| score := positive_score;
                         severity := get_severity positive_score;
                         count := positive_count |};
          highlighted_phrases := highlighted_phrases;
          overall_assessment := overall_assessment;
          overall_score := overall_score
        |})
    end.

(** *** [main]: the buttons that touch [analysis_history] *)

Inductive action : Type :=
| AnalyzeText (user_text now : string)
| ClearHistory
| Logout.

(** One run of the script on a button; the string is the message shown. *)
Definition main_step (analysis_history : list AnalysisRecord) (a : action)
  : outcome (list AnalysisRecord * string) :=
  match a with
  | AnalyzeText user_text now =>
      if truthy (strip user_text) then
        match analyze_text user_text now with
        | Raised => Raised
        | Returned (Some analysis) =>
            Returned (analysis_history ++ [analysis],
                      "Analysis completed successfully!")
        | Returned None => Returned (analysis_history, "")
        end
      else Returned (analysis_history, "Please enter some text to analyze.")
  | ClearHistory => Returned ([], "History cleared!")
  | Logout => Returned ([], "")
  end.

(** The session: a run that raises leaves the stored history as it was. *)
Fixpoint run (analysis_history : list AnalysisRecord) (actions : list action)
  : list AnalysisRecord :=
  match actions with
  | [] => analysis_history
  | a :: rest =>
      match main_step analysis_history a with
      | Returned (h, _) => run h rest
      | Raised => run analysis_history rest
      end
  end.

End Analyzer.

(** A history of two analyses made with the sample collaborators. *)
Definition sample_history : list AnalysisRecord :=
  run flat_sentiment one_sentence regex_words []
    [AnalyzeText "I feel sad." "2024-01-01 12:00:00";
     AnalyzeText "All is calm." "2024-01-02 09:00:00"].

(** ** More built-ins: dictionaries, slices, number formatting *)

Module PyData.

(** A [dict] with string keys, in insertion order. *)
Definition dict (V : Type) : Type := list (string * V).

(** [d.get(k)]; [None] for a missing key. *)
Fixpoint dict_get {V : Type} (d : dict V) (k : string) : option V :=
  match d with
  | [] => None
  | (k', v) :: rest => if String.eqb k' k then Some v else dict_get rest k
  end.

(** [k in d] *)
Definition dict_has {V : Type} (d : dict V) (k : string) : bool :=
  match dict_get d k with Some _ => true | None => false end.

(** [d[k] = v]: the value of a present key is replaced in place, a new key
    goes to the end. *)
Fixpoint dict_set {V : Type} (d : dict V) (k : string) (v : V) : dict V :=
  match d with
  | [] => [(k, v)]
  | (k', v') :: rest =>
      if String.eqb k' k then (k', v) :: rest
      else (k', v') :: dict_set rest k v
  end.

(** [l[-n:]] for a positive [n]: the last [n] items, all of them when the
    list is shorter. *)
Definition last_items {A : Type} (n : nat) (l : list A) : list A :=
  skipn (List.length l - n) l.

(** [enumerate(l, start)] *)
Definition enumerate {A : Type} (start : nat) (l : list A) : list (nat * A) :=
  combine (seq start (List.length l)) l.

(** [str(n)] and [f"{n}"] for a non-negative integer. *)
Definition str_of_nat (n : nat) : string :=
  NilEmpty.string_of_uint (Nat.to_uint n).

(** [s * n] *)
Fixpoint str_repeat (s : string) (n : nat) : string :=
  match n with
  | O => EmptyString
  | S n' => s ++ str_repeat s n'
  end.

(** The newline character. *)
Definition nl : string := String (ascii_of_nat 10) EmptyString.

End PyData.

Import PyData.

(** ** The user registry: [hash_password], [create_user], [verify_user] *)

(** An entry of [users_db]: [{'password', 'email', 'created_at'}]. *)
Record User : Type := {
  password : string;
  email : string;
  created_at : string
}.

(** What the pages show: [st.success], [st.error], [st.info],
    [st.warning]. *)
Inductive notice : Type :=
| st_success (message : string)
| st_error (message : string)
| st_info (message : string)
| st_warning (message : string).

(** [st.session_state] *)
Record SessionState : Type := {
  analysis_history : list AnalysisRecord;
  user_logged_in : bool;
  current_user : option string;
  show_signup : bool;
  users_db : dict User
}.

(** The state set up at the top of the script. *)
Definition initial_state : SessionState :=
  {| analysis_history := [];
     user_logged_in := false;
     current_user := None;
     show_signup := false;
     users_db := [] |}.

(** The submit buttons of the two forms of [show_auth_page], with the values
    of the form fields. *)
Inductive auth_event : Type :=
| LoginSubmit (username password : string)
| ForgotPasswordSubmit (username password : string)
| SignupSubmit (new_username new_email new_password confirm_password : string)
    (terms : bool) (now : string).

(** A button press on the page that [main] shows. *)
Inductive event : Type :=
| OnAuthPage (e : auth_event)
| OnMainPage (a : action).

Section Accounts.

(** [hashlib.sha256(password.encode()).hexdigest()] *)
Variable sha256_hexdigest : string -> string.

Definition hash_password (password : string) : string :=
  sha256_hexdigest password.

(** [create_user]; the registry is passed in and handed back, [now] is the
    reading of the clock. *)
Definition create_user (users_db : dict User)
    (username password email now : string)
  : dict User * (bool * string) :=
  if dict_has users_db username
  then (users_db, (false, "Username already exists"))
  else (dict_set users_db username
          {| password := hash_password password;
             email := email;
             created_at := now |},
        (true, "User created successfully")).

Definition verify_user (users_db : dict User) (username password : string)
  : bool * string :=
  match dict_get users_db username with
  | None => (false, "User not found")
  | Some {| password := stored |} =>
      if String.eqb stored (hash_password password)
      then (true, "Login successful")
      else (false, "Invalid password")
  end.

(** [show_auth_page] on a submit button: the new state and what is shown. *)
Definition show_auth_page (st : SessionState) (e : auth_event)
  : SessionState * list notice :=
  match e with
  | LoginSubmit username password =>
      if truthy username && truthy password then
        let '(ok, message) := verify_user (users_db st) username password in
        if ok then
          ({| analysis_history := analysis_history st;
              user_logged_in := true;
              current_user := Some username;
              show_signup := show_signup st;
              users_db := users_db st |},
           [st_success message])
        else (st, [st_error message])
      else (st, [st_error "Please fill in all fields"])
  | ForgotPasswordSubmit _ _ =>
      (st, [st_info "Password reset functionality would be implemented here"])
  | SignupSubmit new_username new_email new_password confirm_password
      terms now =>
      if truthy new_username && truthy new_email && truthy new_password
         && truthy confirm_password then
        if negb (String.eqb new_password confirm_password) then
          (st, [st_error "Passwords do not match"])
        else if negb terms then
          (st, [st_error "Please accept the terms and conditions"])
        else
          let '(db, (ok, message)) :=
            create_user (users_db st) new_username new_password new_email
              now in
          let st' :=
            {| analysis_history := analysis_history st;
               user_logged_in := user_logged_in st;
               current_user := current_user st;
               show_signup := show_signup st;
               users_db := db |} in
          if ok
          then (st', [st_success message;
                      st_info "You can now login with your credentials"])
          else (st', [st_error message])
      else (st, [st_error "Please fill in all fields"])
  end.

End Accounts.

(** ** The pages of [main] *)

Section Application.

Variable sha256_hexdigest : string -> string.
Variable polarity_scores : string -> outcome SentimentScores.
Variable sent_tokenize : string -> outcome (list string).
Variable word_tokenize : string -> outcome (list string).

(** One run of [main] on a button press.  A page that is not shown has no
    button to press: without a login only the forms of [show_auth_page]
    exist, with a login only the buttons of the main page.  A run that
    raises leaves the session state as it was. *)
Definition main (st : SessionState) (e : event) : SessionState :=
  if negb (user_logged_in st) then
    match e with
    | OnAuthPage ae => fst (show_auth_page sha256_hexdigest st ae)
    | OnMainPage _ => st
    end
  else
    match e with
    | OnAuthPage _ => st
    | OnMainPage Logout =>
        {| analysis_history := [];
           user_logged_in := false;
           current_user := None;
           show_signup := show_signup st;
           users_db := users_db st |}
    | OnMainPage a =>
        match main_step polarity_scores sent_tokenize word_tokenize
                (analysis_history st) a with
        | Returned (h, _) =>
            {| analysis_history := h;
               user_logged_in := user_logged_in st;
               current_user := current_user st;
               show_signup := show_signup st;
               users_db := users_db st |}
        | Raised => st
        end
    end.

(** The session after a sequence of button presses. *)
Definition session_after (events : list event) : SessionState :=
  fold_left main events initial_state.

End Application.

(** ** [get_severity_emoji] and the charts *)

(** The emoji are written as the bytes of their UTF-8 form. *)
Definition emoji_map : dict string :=
  [("Low", "🟢"); ("Mild", "🟡"); ("Moderate", "🟠"); ("High", "🔴")].

(** [emoji_map.get(severity, default)] *)
Definition get_severity_emoji (severity : string) : string :=
  match dict_get emoji_map severity with
  | Some emoji => emoji
  | None => "⚪"
  end.

(** The arguments of [fig.update_layout]. *)
Record Layout : Type := {
  title : string;
  xaxis_title : option string;
  yaxis_title : option string;
  yaxis_range : option (Q * Q);
  height : nat;
  font_family : string;
  font_size : nat
}.

(** The [go.Pie] figure. *)
Record PieChart : Type := {
  labels : list string;
  values : list Q;
  marker_colors : list string;
  hole : Q;
  pie_layout : Layout
}.

(** The [go.Bar] figure; [bar_x], [bar_y] and [bar_text] are its [x], [y]
    and [text]. *)
Record BarChart : Type := {
  bar_x : list string;
  bar_y : list Q;
  marker_color : list string;
  bar_text : list string;
  textposition : string;
  bar_layout : Layout
}.

Definition create_sentiment_pie_chart (sentiment_scores : SentimentScores)
  : option PieChart :=
  let total :=
    (pos sentiment_scores + neu sentiment_scores + neg sentiment_scores)%Q in
  if Qeq_bool total 0 then None
  else
    let labels := ["Positive"; "Neutral"; "Negative"] in
    let values :=
      [pos sentiment_scores; neu sentiment_scores; neg sentiment_scores] in
    let colors := ["#4CAF50"; "#FFC107"; "#F44336"] in
    Some {| labels := labels;
            values := values;
            marker_colors := colors;
            hole := 0.3;
            pie_layout := {| title := "Sentiment Distribution";
                             xaxis_title := None;
                             yaxis_title := None;
                             yaxis_range := None;
                             height := 400;
                             font_family := "Inter, sans-serif";
                             font_size := 12 |} |}.

Section Charts.

(** [f"{score:.2f}"], the formatting of a float to two decimals. *)
Variable format_2f : Q -> string.

Definition create_severity_chart (analysis : AnalysisRecord) : BarChart :=
  let categories := ["Depression"; "Anxiety"; "Stress"; "Positive"] in
  let scores := [score (depression analysis); score (anxiety analysis);
                 score (stress analysis); score (positive analysis)] in
  let colors := ["#FF6B6B"; "#FFA500"; "#FFD700"; "#4CAF50"] in
  {| bar_x := categories;
     bar_y := scores;
     marker_color := colors;
     bar_text := map format_2f scores;
     textposition := "auto";
     bar_layout := {| title := "Mental Health Analysis Scores";
                      xaxis_title := Some "Categories";
                      yaxis_title := Some "Score (0-1)";
                      yaxis_range := Some (0, 1)%Q;
                      height := 400;
                      font_family := "Inter, sans-serif";
                      font_size := 12 |} |}.

End Charts.

(** ** The reports: the history panel, the text report, the PDF report *)

(** One expander of "Recent Analyses": its label and the lines written in
    it; [total] is [len(analysis_history)]. *)
Definition recent_entry (total : nat) (item : nat * AnalysisRecord)
  : string * list string :=
  let '(i, analysis) := item in
  ("Analysis " ++ str_of_nat (total - i + 1) ++ " - " ++ timestamp analysis,
   ["**Text:** " ++ substring 0 100 (text analysis) ++ "...";
    "**Depression:** " ++ get_severity_emoji (severity (depression analysis))
      ++ " " ++ severity (depression analysis);
    "**Anxiety:** " ++ get_severity_emoji (severity (anxiety analysis))
      ++ " " ++ severity (anxiety analysis);
    "**Stress:** " ++ get_severity_emoji (severity (stress analysis))
      ++ " " ++ severity (stress analysis);
    "**Assessment:** " ++ overall_assessment analysis])%string.

(** [for i, analysis in enumerate(reversed(analysis_history[-10:]), 1)] *)
Definition recent_analyses (analysis_history : list AnalysisRecord)
  : list (string * list string) :=
  map (recent_entry (List.length analysis_history))
    (enumerate 1 (rev (last_items 10 analysis_history))).

(** The body of the loop of the "Text Report" button. *)
Definition text_report_step (text_data : string)
    (item : nat * AnalysisRecord) : string :=
  let '(i, analysis) := item in
  let text_data :=
    (text_data ++ ("Analysis " ++ str_of_nat i ++ " - "
                   ++ timestamp analysis ++ nl))%string in
  let text_data :=
    (text_data ++ ("Depression: " ++ severity (depression analysis)
                   ++ nl))%string in
  let text_data :=
    (text_data ++ ("Anxiety: " ++ severity (anxiety analysis)
                   ++ nl))%string in
  let text_data :=
    (text_data ++ ("Stress: " ++ severity (stress analysis) ++ nl))%string in
  let text_data :=
    (text_data ++ ("Overall: " ++ overall_assessment analysis
                   ++ nl))%string in
  (text_data ++ (str_repeat "-" 50 ++ (nl ++ nl)))%string.

(** [text_data] of the "Text Report" button. *)
Definition text_report (analysis_history : list AnalysisRecord) : string :=
  fold_left text_report_step (enumerate 1 analysis_history) EmptyString.

(** The calls made on the [FPDF] object. *)
Inductive fpdf_call : Type :=
| add_page
| set_font (family style : string) (size : nat)
| cell (w h : nat) (txt : string) (ln : bool) (align : string)
| ln (h : nat)
| multi_cell (w h : nat) (txt : string).

(** The body of the loop of [export_results_pdf]; [pdf] is the list of the
    calls made so far. *)
Definition export_step (pdf : list fpdf_call) (item : nat * AnalysisRecord)
  : list fpdf_call :=
  let '(i, analysis) := item in
  pdf ++ [
    set_font "helvetica" "B" 12;
    cell 0 10
      ("Analysis " ++ str_of_nat i ++ " - " ++ timestamp analysis)%string
      true "";
    set_font "helvetica" "" 10;
    cell 0 10 ("Depression: " ++ severity (depression analysis))%string
      true "";
    cell 0 10 ("Anxiety: " ++ severity (anxiety analysis))%string true "";
    cell 0 10 ("Stress: " ++ severity (stress analysis))%string true "";
    multi_cell 0 10 ("Overall: " ++ overall_assessment analysis)%string;
    ln 5
  ].

(** [export_results_pdf] up to [pdf.output]: the calls that make the
    document; [now] is the reading of the clock. *)
Definition export_results_pdf_calls (analysis_history : list AnalysisRecord)
    (now : string) : list fpdf_call :=
  let pdf := [
    add_page;
    set_font "helvetica" "" 12;
    set_font "helvetica" "B" 16;
    cell 0 10 "Mental Health Analysis Report" true "C";
    ln 10;
    set_font "helvetica" "" 10;
    cell 0 10 ("Generated on: " ++ now)%string true "";
    ln 5
  ] in
  fold_left export_step (enumerate 1 (last_items 10 analysis_history)) pdf.

Section PdfExport.

(** [pdf.output(dest='S')] as bytes: what the library makes of the calls. *)
Variable fpdf_output : list fpdf_call -> string.

Definition export_results_pdf (analysis_history : list AnalysisRecord)
    (now : string) : string :=
  fpdf_output (export_results_pdf_calls analysis_history now).

End PdfExport.

(** ** The scores in double precision

    The arithmetic of lines 152-175 as Python carries it out: every number
    is an IEEE 754 binary64 value and every operation rounds to the nearest
    one.  An [int] that meets a [float] ([total_words], a count, the [1]
    that [max] or [min] hands back, the divisor [3]) is the double of the
    same value. *)

Module F64.

Definition float : Type := SpecFloat.spec_float.

Definition prec : Z := 53.
Definition emax : Z := 1024.

(** [float(n)] *)
Definition of_nat (n : nat) : float :=
  SpecFloat.binary_normalize prec emax (Z.of_nat n) 0 false.

Definition add : float -> float -> float := SpecFloat.SFadd prec emax.
Definition mul : float -> float -> float := SpecFloat.SFmul prec emax.
Definition div : float -> float -> float := SpecFloat.SFdiv prec emax.

(** [x < y] and [x <= y] *)
Definition ltb : float -> float -> bool := SpecFloat.SFltb.
Definition leb : float -> float -> bool := SpecFloat.SFleb.

(** A decimal literal with the value [num / den], such as [0.1] or [0.15]:
    the double nearest to that fraction. *)
Definition lit (num den : nat) : float := div (of_nat num) (of_nat den).

(** [max(a, b)] and [min(a, b)] *)
Definition max (a b : float) : float := if ltb a b then b else a.
Definition min (a b : float) : float := if ltb b a then b else a.

(** The number a finite double stands for. *)
Definition to_Q (x : float) : Q :=
  match x with
  | SpecFloat.S754_finite s m e =>
      let v := (inject_Z (Zpos m) * Qpower 2 e)%Q in
      if s then (- v)%Q else v
  | _ => 0%Q
  end.

(** [{'score', 'severity', 'count'}] *)
Record CategoryResult : Type := {
  score : float;
  severity : string;
  count : nat
}.

(** The dictionary returned by [analyze_text]. *)
Record AnalysisRecord : Type := {
  timestamp : string;
  text : string;
  sentiment : SentimentScores;
  depression : CategoryResult;
  anxiety : CategoryResult;
  stress : CategoryResult;
  positive : CategoryResult;
  highlighted_phrases : list ConcerningPhrase;
  overall_assessment : string;
  overall_score : float
}.

(** [min(count / max(total_words * 0.1, 1), 1)] *)
Definition severity_score (count total_words : nat) : float :=
  min (div (of_nat count)
         (max (mul (of_nat total_words) (lit 1 10)) (of_nat 1)))
    (of_nat 1).

Definition get_severity (score : float) : string :=
  if leb (lit 3 10) score then "High"
  else if leb (lit 15 100) score then "Moderate"
  else if leb (lit 5 100) score then "Mild"
  else "Low".

Definition get_overall_assessment (negative_score positive_score : float)
  : string :=
  if leb (lit 3 10) negative_score then
    if leb (lit 2 10) positive_score
    then "Mixed emotions with significant concerns - consider professional support"
    else "High concern detected - strongly recommend professional help"
  else if leb (lit 15 100) negative_score then
    if leb (lit 3 10) positive_score
    then "Moderate concerns with positive elements - monitor closely"
    else "Moderate concern - consider speaking with someone"
  else if leb (lit 5 100) negative_score then
    "Mild concerns detected - practice self-care"
  else
    if leb (lit 2 10) positive_score
    then "Positive mental state - keep up the good work!"
    else "Neutral state - maintain healthy habits".

Section Analyzer.

Variable polarity_scores : string -> outcome SentimentScores.
Variable sent_tokenize : string -> outcome (list string).
Variable word_tokenize : string -> outcome (list string).

Definition analyze_text (text now : string)
  : outcome (option AnalysisRecord) :=
  if negb (truthy (strip text)) then Returned None
  else
    let sentiment_scores :=
      match polarity_scores text with
      | Returned scores => scores
      | Raised => neutral_sentiment
      end in
    let '(sentences, words) :=
      safe_tokenize sent_tokenize word_tokenize text in
    let depression_count := keyword_count depression_keywords text in
    let anxiety_count := keyword_count anxiety_keywords text in
    let stress_count := keyword_count stress_keywords text in
    let positive_count := keyword_count positive_keywords text in
    let total_words := List.length words in
    let depression_score := severity_score depression_count total_words in
    let anxiety_score := severity_score anxiety_count total_words in
    let stress_score := severity_score stress_count total_words in
    let positive_score := severity_score positive_count total_words in
    match find_concerning_phrases sent_tokenize text with
    | Raised => Raised
    | Returned highlighted_phrases =>
        let overall_score :=
          div (add (add depression_score anxiety_score) stress_score)
            (of_nat 3) in
        let overall_assessment :=
          get_overall_assessment overall_score positive_score in
        Returned (Some {|
          timestamp := now;
          text := text;
          sentiment := sentiment_scores;
          depression := {| score := depression_score;
                           severity := get_severity depression_score;
                           count := depression_count |};
          anxiety := {| score := anxiety_score;
                        severity := get_severity anxiety_score;
                        count := anxiety_count |};
          stress := {| score := stress_score;
                       severity := get_severity stress_score;
                       count := stress_count |};
          positive := {| score := positive_score;
                         severity := get_severity positive_score;
                         count := positive_count |};
          highlighted_phrases := highlighted_phrases;
          overall_assessment := overall_assessment;
          overall_score := overall_score
        |})
    end.

(** The buttons of [main] that touch [analysis_history]. *)
Definition main_step (analysis_history : list AnalysisRecord) (a : action)
  : outcome (list AnalysisRecord * string) :=
  match a with
  | AnalyzeText user_text now =>
      if truthy (strip user_text) then
        match analyze_text user_text now with
        | Raised => Raised
        | Returned (Some analysis) =>
            Returned (analysis_history ++ [analysis],
                      "Analysis completed successfully!")
        | Returned None => Returned (analysis_history, "")
        end
      else Returned (analysis_history, "Please enter some text to analyze.")
  | ClearHistory => Returned ([], "History cleared!")
  | Logout => Returned ([], "")
  end.

Fixpoint run (analysis_history : list AnalysisRecord) (actions : list action)
  : list AnalysisRecord :=
  match actions with
  | [] => analysis_history
  | a :: rest =>
      match main_step analysis_history a with
      | Returned (h, _) => run h rest
      | Raised => run analysis_history rest
      end
  end.

End Analyzer.

End F64.

(** A text of two hundred words with three depression keywords. *)
Definition rounding_text : string :=
  (str_repeat "a " 197 ++ "sad lonely tired")%string.

(** ** Vocabulary of the statements *)

(** The bands in their order: Low, Mild, Moderate, High. *)
Definition severity_rank (band : string) : nat :=
  if String.eqb band "High" then 3
  else if String.eqb band "Moderate" then 2
  else if String.eqb band "Mild" then 1
  else 0.

(** The first entry of [keywords], in list order, found in the sentence. *)
Definition first_match (keywords : list string) (sentence_lower : string)
  : option string :=
  find (fun keyword => contains keyword sentence_lower) keywords.

(** What one category contributes for one sentence: nothing, or one phrase
    with the first matching keyword of its list. *)
Definition emitted (type : string) (keywords : list string)
    (sentence : string) : list ConcerningPhrase :=
  match first_match keywords (lower sentence) with
  | Some keyword => [{| phrase := strip sentence;
                        type := type;
                        keyword := keyword |}]
  | None => []
  end.

(** The phrases of one sentence, category by category. *)
Definition sentence_phrases (sentence : string) : list ConcerningPhrase :=
  emitted "depression" depression_keywords sentence
  ++ emitted "anxiety" anxiety_keywords sentence
  ++ emitted "stress" stress_keywords sentence.

(** The unweighted mean of the three negative scores of a record. *)
Definition negative_mean (r : AnalysisRecord) : Q :=
  ((score (depression r) + score (anxiety r) + score (stress r)) / 3)%Q.

(** Every character of the string passes the test. *)
Fixpoint string_forall (test : ascii -> bool) (s : string) : bool :=
  match s with
  | EmptyString => true
  | String c rest => test c && string_forall test rest
  end.

(** The characters of the string that pass the test, in order. *)
Fixpoint string_filter (test : ascii -> bool) (s : string) : string :=
  match s with
  | EmptyString => EmptyString
  | String c rest =>
      if test c then String c (string_filter test rest)
      else string_filter test rest
  end.

(** The entries of the three negative lists. *)
Definition negative_keywords : list string :=
  depression_keywords ++ anxiety_keywords ++ stress_keywords.

(** What holds of the session state between two button presses: without
    login the history is empty and there is no current user; with login
    the current user has an account; no account has the empty name. *)
Definition session_ok (st : SessionState) : Prop :=
  (user_logged_in st = false ->
   analysis_history st = [] /\ current_user st = None)
  /\ (user_logged_in st = true ->
      exists u user, current_user st = Some u /\ u <> ""
                     /\ dict_get (users_db st) u = Some user)
  /\ (forall u user, dict_get (users_db st) u = Some user -> u <> "").

(** The four category results of a record. *)
Definition categories (r : AnalysisRecord) : list CategoryResult :=
  [depression r; anxiety r; stress r; positive r].

(** ** Facts about the string built-ins *)

Lemma prefix_iff (k t : string) :
  prefix k t = true <-> exists post, t = (k ++ post)%string.
Proof.
  revert t; induction k as [|a k IH]; intros t.
  - destruct t; simpl; split; eauto.
  - destruct t as [|b t]; simpl.
    + split; [discriminate | intros [post H]; discriminate].
    + destruct (ascii_dec a b) as [->|Hab].
      * rewrite IH. split; intros [post H]; exists post.
        -- now rewrite H.
        -- now injection H.
      * split; [discriminate | intros [post H]; injection H; congruence].
Qed.

Lemma append_assoc (a b c : string) :
  ((a ++ b) ++ c = a ++ (b ++ c))%string.
Proof. induction a; simpl; congruence. Qed.

Lemma contains_nil (k : string) : contains k "" = prefix k "".
Proof. reflexivity. Qed.

Lemma contains_cons (k : string) (c : ascii) (t : string) :
  contains k (String c t) = prefix k (String c t) || contains k t.
Proof. reflexivity. Qed.

(** [keyword in text] is containment as a contiguous substring. *)
Lemma contains_iff (k t : string) :
  contains k t = true <-> exists pre post, t = (pre ++ k ++ post)%string.
Proof.
  induction t as [|c t IH].
  - rewrite contains_nil, prefix_iff. split.
    + intros [post H]. exists "", post. exact H.
    + intros [pre [post H]]. destruct pre; simpl in H.
      * now exists post.
      * discriminate.
  - rewrite contains_cons, orb_true_iff, IH, prefix_iff. split.
    + intros [[post H] | [pre [post H]]].
      * exists "", post. exact H.
      * exists (String c pre), post. simpl. now rewrite H.
    + intros [pre [post H]]. destruct pre as [|d pre]; simpl in H.
      * left. now exists post.
      * right. injection H as _ H. now exists pre, post.
Qed.

Lemma contains_append_r (k t u : string) :
  contains k t = true -> contains k (t ++ u)%string = true.
Proof.
  rewrite !contains_iff. intros [pre [post ->]].
  exists pre, (post ++ u)%string. now rewrite !append_assoc.
Qed.

Lemma lower_append (a b : string) :
  lower (a ++ b) = (lower a ++ lower b)%string.
Proof. induction a; simpl; congruence. Qed.

Lemma isspace_lower_char (c : ascii) : isspace (lower_char c) = isspace c.
Proof. destruct c as [[] [] [] [] [] [] [] []]; reflexivity. Qed.

Lemma rstrip_empty_iff (s : string) : rstrip s = "" <-> blank s = true.
Proof.
  induction s as [|c s IH]; simpl.
  - tauto.
  - destruct (rstrip s) eqn:E.
    + destruct (isspace c); simpl.
      * rewrite <- IH. tauto.
      * split; discriminate.
    + rewrite andb_true_iff, <- IH. split; [discriminate | intros [_ H]; discriminate].
Qed.

Lemma lstrip_blank (s : string) : blank (lstrip s) = blank s.
Proof.
  induction s as [|c s IH]; simpl; [reflexivity|].
  destruct (isspace c) eqn:E; simpl; [exact IH | now rewrite E].
Qed.

(** [text.strip()] is empty exactly for the whitespace-only texts. *)
Lemma strip_truthy (s : string) : truthy (strip s) = negb (blank s).
Proof.
  unfold strip. destruct (rstrip (lstrip s)) eqn:E; simpl.
  - apply rstrip_empty_iff in E. rewrite lstrip_blank in E. now rewrite E.
  - destruct (blank s) eqn:B; [|reflexivity].
    rewrite <- lstrip_blank in B. apply rstrip_empty_iff in B. congruence.
Qed.

Lemma blank_lower (s : string) : blank (lower s) = blank s.
Proof.
  induction s as [|c s IH]; simpl; [reflexivity|].
  now rewrite isspace_lower_char, IH.
Qed.

(** ** The keyword matcher *)

(** The count is the number of list entries found in the lowercased text. *)
Lemma keyword_count_filter (keywords : list string) (text : string) :
  keyword_count keywords text
  = List.length (filter (fun word => contains word (lower text)) keywords).
Proof.
  induction keywords as [|word rest IH]; simpl; [reflexivity|].
  rewrite IH. now destruct (contains word (lower text)).
Qed.

(** An entry adds one to the count when it is a substring of the lowercased
    text and nothing otherwise, however often it occurs there. *)
Lemma keyword_count_cons (word : string) (rest : list string) (text : string) :
  (keyword_count (word :: rest) text = 1 + keyword_count rest text
   /\ exists pre post, lower text = (pre ++ word ++ post)%string)
  \/ (keyword_count (word :: rest) text = keyword_count rest text
      /\ contains word (lower text) = false).
Proof.
  simpl. destruct (contains word (lower text)) eqn:E.
  - left. split; [reflexivity | now apply contains_iff].
  - right. now split.
Qed.

Lemma keyword_count_le_length (keywords : list string) (text : string) :
  keyword_count keywords text <= List.length keywords.
Proof.
  induction keywords as [|word rest IH]; simpl; [lia|].
  destruct (contains word (lower text)); lia.
Qed.

(** Over a list without repeated entries, the count is the number of
    distinct keywords found in the text. *)
Lemma keyword_count_NoDup (keywords : list string) (text : string) :
  NoDup keywords ->
  keyword_count keywords text
  = List.length
      (nodup string_dec
         (filter (fun word => contains word (lower text)) keywords)).
Proof.
  intros H. rewrite keyword_count_filter. f_equal.
  symmetry. apply nodup_fixed_point. now apply NoDup_filter.
Qed.

(** C2, at the text "worried": the anxiety list holds the entry "worried"
    twice, so the one keyword found in the text adds two to the anxiety
    count; the number of distinct keywords found is one. *)
Theorem anxiety_count_worried_twice :
  keyword_count anxiety_keywords "worried" = 2
  /\ filter (fun word => contains word (lower "worried")) anxiety_keywords
     = ["worried"; "worried"]
  /\ count_occ string_dec anxiety_keywords "worried" = 2
  /\ List.length
       (nodup string_dec
          (filter (fun word => contains word (lower "worried"))
             anxiety_keywords)) = 1.
Proof. repeat split; vm_compute; reflexivity. Qed.

(** The three other lists have no repeated entry. *)
Lemma other_lists_NoDup :
  NoDup depression_keywords /\ NoDup stress_keywords
  /\ NoDup positive_keywords.
Proof.
  repeat split;
    (apply (NoDup_count_occ' string_dec); intros x Hx;
     repeat (destruct Hx as [<- | Hx]; [vm_compute; reflexivity|]);
     destruct Hx).
Qed.

Lemma keyword_count_append (keywords : list string) (text suffix : string) :
  keyword_count keywords text <= keyword_count keywords (text ++ suffix).
Proof.
  induction keywords as [|word rest IH]; simpl; [lia|].
  destruct (contains word (lower text)) eqn:E.
  - rewrite lower_append, (contains_append_r _ _ _ E). lia.
  - destruct (contains word (lower (text ++ suffix))); lia.
Qed.

(** C10: appending a suffix to the text lowers none of the four keyword
    counts. *)
Theorem keyword_counts_monotone_under_suffix (text suffix : string) :
  keyword_count depression_keywords text
    <= keyword_count depression_keywords (text ++ suffix)
  /\ keyword_count anxiety_keywords text
     <= keyword_count anxiety_keywords (text ++ suffix)
  /\ keyword_count stress_keywords text
     <= keyword_count stress_keywords (text ++ suffix)
  /\ keyword_count positive_keywords text
     <= keyword_count positive_keywords (text ++ suffix).
Proof. repeat split; apply keyword_count_append. Qed.

(** The score itself can go down when the text grows. *)
Example score_drops_under_suffix :
  let text := "sad" in
  let longer := "sad a b c d e f g h i j k l m n o p q r s" in
  (severity_score (keyword_count depression_keywords longer)
     (List.length (re_findall_words (lower longer)))
   < severity_score (keyword_count depression_keywords text)
       (List.length (re_findall_words (lower text))))%Q.
Proof. vm_compute. reflexivity. Qed.

(** ** The severity scorer *)

Lemma Qlt_bool_iff (x y : Q) : Qlt_bool x y = true <-> (x < y)%Q.
Proof.
  unfold Qlt_bool. rewrite negb_true_iff, <- not_true_iff_false, Qle_bool_iff.
  split; [apply Qnot_le_lt | apply Qlt_not_le].
Qed.

Lemma Qle_bool_false (x y : Q) : Qle_bool x y = false <-> (y < x)%Q.
Proof.
  rewrite <- not_true_iff_false, Qle_bool_iff.
  split; [apply Qnot_le_lt | apply Qlt_not_le].
Qed.

(** Python's [max] and [min] are the mathematical ones. *)
Lemma max_Qmax (a b : Q) : (Py.max a b == Qmax a b)%Q.
Proof.
  unfold Py.max. destruct (Qlt_bool a b) eqn:E.
  - apply Qlt_bool_iff in E. symmetry. apply Q.max_r. lra.
  - apply not_true_iff_false in E. rewrite Qlt_bool_iff in E.
    symmetry. apply Q.max_l. lra.
Qed.

Lemma min_Qmin (a b : Q) : (Py.min a b == Qmin a b)%Q.
Proof.
  unfold Py.min. destruct (Qlt_bool b a) eqn:E.
  - apply Qlt_bool_iff in E. symmetry. apply Q.min_r. lra.
  - apply not_true_iff_false in E. rewrite Qlt_bool_iff in E.
    symmetry. apply Q.min_l. lra.
Qed.

(** The divisor is at least 1: the division never fails. *)
Lemma divisor_ge_1 (a : Q) : (1 <= Py.max a 1)%Q.
Proof.
  unfold Py.max. destruct (Qlt_bool a 1) eqn:E; [lra|].
  apply not_true_iff_false in E. rewrite Qlt_bool_iff in E. lra.
Qed.

Lemma min_1_bounds (x : Q) : (0 <= x -> 0 <= Py.min x 1 <= 1)%Q.
Proof.
  intros Hx. unfold Py.min. destruct (Qlt_bool 1 x) eqn:E; [lra|].
  apply not_true_iff_false in E. rewrite Qlt_bool_iff in E. lra.
Qed.

Lemma severity_score_formula (count total_words : nat) :
  (severity_score count total_words
   == Qmin (inject_Z (Z.of_nat count)
            / Qmax (inject_Z (Z.of_nat total_words) * 0.1) 1) 1)%Q.
Proof.
  unfold severity_score. rewrite min_Qmin, max_Qmax. reflexivity.
Qed.

Lemma severity_score_bounds (count total_words : nat) :
  (0 <= severity_score count total_words <= 1)%Q.
Proof.
  unfold severity_score. apply min_1_bounds.
  assert (H := divisor_ge_1 (inject_Z (Z.of_nat total_words) * 0.1)).
  apply Qle_shift_div_l; [lra|].
  rewrite Qmult_0_l. change 0%Q with (inject_Z 0).
  rewrite <- Zle_Qle. lia.
Qed.

(** No count makes the score leave [0,1], not even with no word at all. *)
Example severity_score_extremes :
  (severity_score 0 0 == 0 /\ severity_score 28 0 == 1
   /\ severity_score 28 1 == 1 /\ severity_score 1 200 == 0.05)%Q.
Proof. repeat split; vm_compute; reflexivity. Qed.

Lemma severity_rank_values :
  severity_rank "High" = 3 /\ severity_rank "Moderate" = 2
  /\ severity_rank "Mild" = 1 /\ severity_rank "Low" = 0.
Proof. repeat split; reflexivity. Qed.

Ltac split_on_thresholds :=
  repeat match goal with
         | |- context [Qle_bool ?a ?b] =>
             let E := fresh "E" in
             destruct (Qle_bool a b) eqn:E;
             [apply Qle_bool_iff in E | apply Qle_bool_false in E]
         end.

(** C4: the band of a score is fixed by the thresholds 0.30, 0.15 and 0.05,
    each inclusive at its lower end; every score gets one of the four bands,
    and a larger score never gets a lower band. *)
Theorem get_severity_bands (s : Q) :
  ((0.3 <= s)%Q -> get_severity s = "High")
  /\ ((0.15 <= s)%Q -> (s < 0.3)%Q -> get_severity s = "Moderate")
  /\ ((0.05 <= s)%Q -> (s < 0.15)%Q -> get_severity s = "Mild")
  /\ ((s < 0.05)%Q -> get_severity s = "Low")
  /\ In (get_severity s) ["Low"; "Mild"; "Moderate"; "High"]
  /\ (forall s' : Q, (s <= s')%Q ->
      severity_rank (get_severity s) <= severity_rank (get_severity s')).
Proof.
  unfold get_severity.
  split; [|split; [|split; [|split; [|split]]]]; intros;
    split_on_thresholds; try reflexivity; try lra;
    try (rewrite ?(proj1 severity_rank_values),
           ?(proj1 (proj2 severity_rank_values)),
           ?(proj1 (proj2 (proj2 severity_rank_values))),
           ?(proj2 (proj2 (proj2 severity_rank_values))); lia);
    simpl; auto 6.
Qed.

Lemma get_severity_bands_witness :
  get_severity 0.3 = "High" /\ get_severity 0.15 = "Moderate"
  /\ get_severity 0.05 = "Mild" /\ get_severity 0.049 = "Low"
  /\ severity_rank (get_severity 0.15) <= severity_rank (get_severity 1).
Proof.
  split. { apply (get_severity_bands 0.3). lra. }
  split. { apply (get_severity_bands 0.15); lra. }
  split. { apply (get_severity_bands 0.05); lra. }
  split. { apply (get_severity_bands 0.049). lra. }
  apply (get_severity_bands 0.15). lra.
Defined.

(** ** The assessment synthesizer *)

(** C6, as the code has it: the decision table over the overall score and
    the positive score, first match first; the separator inside each string
    is the ASCII hyphen-minus between two spaces. *)
Theorem get_overall_assessment_table (overall positive_score : Q) :
  ((0.3 <= overall)%Q -> (0.2 <= positive_score)%Q ->
   get_overall_assessment overall positive_score
   = "Mixed emotions with significant concerns - consider professional support")
  /\ ((0.3 <= overall)%Q -> (positive_score < 0.2)%Q ->
      get_overall_assessment overall positive_score
      = "High concern detected - strongly recommend professional help")
  /\ ((0.15 <= overall)%Q -> (overall < 0.3)%Q -> (0.3 <= positive_score)%Q ->
      get_overall_assessment overall positive_score
      = "Moderate concerns with positive elements - monitor closely")
  /\ ((0.15 <= overall)%Q -> (overall < 0.3)%Q -> (positive_score < 0.3)%Q ->
      get_overall_assessment overall positive_score
      = "Moderate concern - consider speaking with someone")
  /\ ((0.05 <= overall)%Q -> (overall < 0.15)%Q ->
      get_overall_assessment overall positive_score
      = "Mild concerns detected - practice self-care")
  /\ ((overall < 0.05)%Q -> (0.2 <= positive_score)%Q ->
      get_overall_assessment overall positive_score
      = "Positive mental state - keep up the good work!")
  /\ ((overall < 0.05)%Q -> (positive_score < 0.2)%Q ->
      get_overall_assessment overall positive_score
      = "Neutral state - maintain healthy habits").
Proof.
  unfold get_overall_assessment.
  repeat split; intros; split_on_thresholds; try reflexivity; lra.
Qed.

Lemma get_overall_assessment_table_witness :
  get_overall_assessment 0.3 0.2
  = "Mixed emotions with significant concerns - consider professional support"
  /\ get_overall_assessment 1 0.19
     = "High concern detected - strongly recommend professional help"
  /\ get_overall_assessment 0.15 0.3
     = "Moderate concerns with positive elements - monitor closely"
  /\ get_overall_assessment 0.29 0.29
     = "Moderate concern - consider speaking with someone"
  /\ get_overall_assessment 0.05 1
     = "Mild concerns detected - practice self-care"
  /\ get_overall_assessment 0 0.2
     = "Positive mental state - keep up the good work!"
  /\ get_overall_assessment 0.049 0
     = "Neutral state - maintain healthy habits".
Proof.
  split. { apply (get_overall_assessment_table 0.3 0.2); lra. }
  split. { apply (get_overall_assessment_table 1 0.19); lra. }
  split. { apply (get_overall_assessment_table 0.15 0.3); lra. }
  split. { apply (get_overall_assessment_table 0.29 0.29); lra. }
  split. { apply (get_overall_assessment_table 0.05 1); lra. }
  split. { apply (get_overall_assessment_table 0 0.2); lra. }
  apply (get_overall_assessment_table 0.049 0); lra.
Defined.

(** C6 as stated fails: the table's strings hold a long dash (U+2014, three
    bytes in the literal below) where the returned strings hold the ASCII
    hyphen-minus. *)
Lemma get_overall_assessment_not_long_dash :
  (0.3 <= 0.3)%Q /\ (0.2 <= 0.2)%Q
  /\ get_overall_assessment 0.3 0.2
     <> "Mixed emotions with significant concerns — consider professional support"
  /\ get_overall_assessment 0.3 0
     <> "High concern detected — strongly recommend professional help".
Proof.
  repeat split; try lra; vm_compute; discriminate.
Qed.

(** ** The phrase extractor *)

Lemma first_match_first (keywords : list string) (t kw : string) :
  first_match keywords t = Some kw ->
  exists before after,
    keywords = before ++ kw :: after
    /\ contains kw t = true
    /\ forall k, In k before -> contains k t = false.
Proof.
  unfold first_match.
  induction keywords as [|k rest IH]; simpl; [discriminate|].
  destruct (contains k t) eqn:E.
  - intros [= <-]. exists [], rest. repeat split; [exact E | intros ? []].
  - intros H. destruct (IH H) as (before & after & -> & Hkw & Hnone).
    exists (k :: before), after. repeat split; [exact Hkw|].
    intros k' [<- | Hin]; [exact E | now apply Hnone].
Qed.

Lemma first_match_none (keywords : list string) (t : string) :
  first_match keywords t = None ->
  forall k, In k keywords -> contains k t = false.
Proof. intros H k Hin. exact (find_none _ _ H k Hin). Qed.

(** A keyword loop appends what its category contributes for the sentence. *)
Lemma scan_keywords_emitted (ty : string) (keywords : list string)
    (sentence : string) (phrases : list ConcerningPhrase) :
  scan_keywords ty keywords sentence (lower sentence) phrases
  = phrases ++ emitted ty keywords sentence.
Proof.
  unfold emitted, first_match.
  induction keywords as [|k rest IH]; simpl.
  - now rewrite app_nil_r.
  - destruct (contains k (lower sentence)); [reflexivity | exact IH].
Qed.

Lemma scan_sentence_phrases (phrases : list ConcerningPhrase)
    (sentence : string) :
  scan_sentence phrases sentence = phrases ++ sentence_phrases sentence.
Proof.
  unfold scan_sentence, sentence_phrases.
  rewrite !scan_keywords_emitted, <- !app_assoc. reflexivity.
Qed.

Lemma fold_scan_sentence (sentences : list string)
    (phrases : list ConcerningPhrase) :
  fold_left scan_sentence sentences phrases
  = phrases ++ flat_map sentence_phrases sentences.
Proof.
  revert phrases. induction sentences as [|s rest IH]; intros phrases; simpl.
  - now rewrite app_nil_r.
  - rewrite IH, scan_sentence_phrases, <- app_assoc. reflexivity.
Qed.

Lemma emitted_length (ty : string) (keywords : list string)
    (sentence : string) :
  List.length (emitted ty keywords sentence) <= 1.
Proof. unfold emitted. destruct (first_match _ _); simpl; lia. Qed.

Lemma emitted_phrase (ty : string) (keywords : list string)
    (sentence : string) (p : ConcerningPhrase) :
  In p (emitted ty keywords sentence) ->
  phrase p = strip sentence /\ type p = ty
  /\ first_match keywords (lower sentence) = Some (keyword p).
Proof.
  unfold emitted. destruct (first_match _ _) as [kw|] eqn:E; simpl.
  - intros [<- | []]. simpl. auto.
  - intros [].
Qed.

(** The categories a phrase can carry, and membership of its keyword. *)
Lemma sentence_phrases_category (sentence : string) (p : ConcerningPhrase) :
  In p (sentence_phrases sentence) ->
  (type p = "depression" /\ In (keyword p) depression_keywords)
  \/ (type p = "anxiety" /\ In (keyword p) anxiety_keywords)
  \/ (type p = "stress" /\ In (keyword p) stress_keywords).
Proof.
  unfold sentence_phrases. rewrite !in_app_iff.
  intros [H | [H | H]]; apply emitted_phrase in H;
    destruct H as (_ & Hty & Hkw); apply first_match_first in Hkw;
    destruct Hkw as (before & after & Hlist & _);
    [left | right; left | right; right];
    (split; [exact Hty | rewrite Hlist; apply in_elt]).
Qed.

Lemma negative_keywords_not_positive (kw : string) :
  In kw depression_keywords \/ In kw anxiety_keywords
  \/ In kw stress_keywords ->
  ~ In kw positive_keywords.
Proof.
  intros H Hpos.
  assert (D : existsb (String.eqb kw)
                (depression_keywords ++ anxiety_keywords ++ stress_keywords)
              = true).
  { apply existsb_exists. exists kw. rewrite !in_app_iff.
    split; [tauto | apply String.eqb_refl]. }
  clear H. revert D.
  repeat (destruct Hpos as [<- | Hpos]; [vm_compute; discriminate|]).
  destruct Hpos.
Qed.

(** ** The analyzer, for arbitrary collaborators *)

Section Properties.

Variable polarity_scores : string -> outcome SentimentScores.
Variable sent_tokenize : string -> outcome (list string).
Variable word_tokenize : string -> outcome (list string).

Local Abbreviation analyze :=
  (analyze_text polarity_scores sent_tokenize word_tokenize).
Local Abbreviation tokenize := (safe_tokenize sent_tokenize word_tokenize).
Local Abbreviation extract := (find_concerning_phrases sent_tokenize).
Local Abbreviation step := (main_step polarity_scores sent_tokenize word_tokenize).
Local Abbreviation session := (run polarity_scores sent_tokenize word_tokenize).

(** [safe_tokenize] always returns: the [except] branch calls no
    collaborator. *)
Lemma safe_tokenize_fallback (text : string) :
  sent_tokenize (lower text) = Raised \/ word_tokenize (lower text) = Raised ->
  tokenize text = fallback_tokenize text.
Proof.
  unfold safe_tokenize. intros [-> | H]; [reflexivity|].
  rewrite H. now destruct (sent_tokenize (lower text)).
Qed.

(** What a returned record holds. *)
Lemma analyze_text_returned (input now : string) (r : AnalysisRecord) :
  analyze input now = Returned (Some r) ->
  let total_words := List.length (snd (tokenize input)) in
  let result keywords :=
    {| score := severity_score (keyword_count keywords input) total_words;
       severity :=
         get_severity
           (severity_score (keyword_count keywords input) total_words);
       count := keyword_count keywords input |} in
  blank input = false
  /\ extract input = Returned (highlighted_phrases r)
  /\ timestamp r = now
  /\ text r = input
  /\ sentiment r = match polarity_scores input with
                   | Returned scores => scores
                   | Raised => neutral_sentiment
                   end
  /\ depression r = result depression_keywords
  /\ anxiety r = result anxiety_keywords
  /\ stress r = result stress_keywords
  /\ positive r = result positive_keywords
  /\ overall_score r = negative_mean r
  /\ overall_assessment r
     = get_overall_assessment (overall_score r) (score (positive r)).
Proof.
  unfold analyze_text. rewrite strip_truthy, negb_involutive.
  destruct (blank input); [discriminate|].
  destruct (tokenize input) as [sentences words]; simpl.
  destruct (extract input) as [phrases|]; [|discriminate].
  intros [= <-]. repeat split.
Qed.

Lemma analyze_text_none_iff (text now : string) :
  analyze text now = Returned None <-> blank text = true.
Proof.
  unfold analyze_text. rewrite strip_truthy, negb_involutive.
  destruct (blank text); [tauto|].
  destruct (tokenize text) as [sentences words].
  destruct (extract text); split; discriminate.
Qed.

Lemma analyze_text_raised_iff (text now : string) :
  analyze text now = Raised
  <-> blank text = false /\ sent_tokenize text = Raised.
Proof.
  unfold analyze_text, find_concerning_phrases.
  rewrite strip_truthy, negb_involutive.
  destruct (blank text); [split; [discriminate | intros [? _]; discriminate]|].
  destruct (tokenize text) as [sentences words].
  destruct (sent_tokenize text); split; try discriminate; auto.
  intros [_ ?]; discriminate.
Qed.

(** With a sentence tokenizer that returns on the text, every text that is
    not whitespace-only gets a record, whatever the two other collaborators
    do. *)
Lemma analyze_text_record (text now : string) (sentences : list string) :
  blank text = false ->
  sent_tokenize text = Returned sentences ->
  exists r, analyze text now = Returned (Some r).
Proof.
  intros Hb Hs.
  destruct (analyze text now) as [[r|]|] eqn:E.
  - now exists r.
  - apply analyze_text_none_iff in E. congruence.
  - apply analyze_text_raised_iff in E. destruct E. congruence.
Qed.

(** C3: in every record, each of the four category scores is
    [min(count / max(total_words * 0.1, 1), 1)] for that category's keyword
    count and the number of word tokens, and lies between 0 and 1. *)
Theorem category_scores_formula_and_bounds
    (text now : string) (r : AnalysisRecord) :
  analyze text now = Returned (Some r) ->
  let total_words := List.length (snd (tokenize text)) in
  count (depression r) = keyword_count depression_keywords text
  /\ count (anxiety r) = keyword_count anxiety_keywords text
  /\ count (stress r) = keyword_count stress_keywords text
  /\ count (positive r) = keyword_count positive_keywords text
  /\ forall c, In c (categories r) ->
       (score c == Qmin (inject_Z (Z.of_nat (count c))
                         / Qmax (inject_Z (Z.of_nat total_words) * 0.1) 1) 1
        /\ 0 <= score c <= 1)%Q.
Proof.
  intros H. apply analyze_text_returned in H. cbv zeta in H.
  destruct H as (_ & _ & _ & _ & _ & Hd & Ha & Hs & Hp & _).
  intros total_words. unfold categories.
  rewrite Hd, Ha, Hs, Hp. simpl.
  do 4 (split; [reflexivity|]).
  intros c [<- | [<- | [<- | [<- | []]]]]; simpl;
    (split; [apply severity_score_formula | apply severity_score_bounds]).
Qed.

(** Every record of the history was appended by [main] in this session. *)
Lemma main_step_history (P : AnalysisRecord -> Prop)
    (history history' : list AnalysisRecord) (a : action) (msg : string) :
  (forall text now r, analyze text now = Returned (Some r) -> P r) ->
  Forall P history ->
  step history a = Returned (history', msg) ->
  Forall P history'.
Proof.
  intros HP Hh. destruct a as [user_text now| |]; simpl.
  - destruct (truthy (strip user_text)).
    + destruct (analyze user_text now) as [[r|]|] eqn:E.
      * intros [= <- _]. apply Forall_app. split; [exact Hh|].
        constructor; [exact (HP _ _ _ E) | constructor].
      * now intros [= <- _].
      * discriminate.
    + now intros [= <- _].
  - intros [= <- _]. constructor.
  - intros [= <- _]. constructor.
Qed.

Lemma run_history (P : AnalysisRecord -> Prop) (actions : list action) :
  (forall text now r, analyze text now = Returned (Some r) -> P r) ->
  forall history, Forall P history -> Forall P (session history actions).
Proof.
  intros HP. induction actions as [|a rest IH]; intros history Hh; simpl.
  - exact Hh.
  - destruct (step history a) as [[h msg]|] eqn:E.
    + apply IH. exact (main_step_history P _ _ _ _ HP Hh E).
    + now apply IH.
Qed.

(** With the scores read as rationals, the overall score of a record is the
    unweighted mean of its three negative category scores; so it is for
    every record of the history, after any sequence of button presses. *)
Theorem overall_score_is_negative_mean :
  (forall text now r,
     analyze text now = Returned (Some r) ->
     overall_score r
     = ((score (depression r) + score (anxiety r) + score (stress r)) / 3)%Q)
  /\ (forall actions,
        Forall (fun r => overall_score r = negative_mean r)
          (session [] actions)).
Proof.
  assert (H : forall text now r,
             analyze text now = Returned (Some r) ->
             overall_score r = negative_mean r).
  { intros text now r E. now apply analyze_text_returned in E. }
  split; [exact H|].
  intros actions. apply run_history; [exact H | constructor].
Qed.

Lemma find_concerning_phrases_returned (text : string)
    (sentences : list string) :
  sent_tokenize text = Returned sentences ->
  extract text = Returned (flat_map sentence_phrases sentences).
Proof.
  intros H. unfold find_concerning_phrases. rewrite H.
  now rewrite fold_scan_sentence.
Qed.

(** C1, as the code has it: the phrases of a text are those of its
    sentences, in order; a sentence yields at most one phrase per category,
    so at most three, in the order depression, anxiety, stress, whether or
    not an earlier category matched; a phrase carries the stripped sentence,
    its category, and the first entry of that category's list found in the
    lowercased sentence. *)
Theorem find_concerning_phrases_per_category
    (text : string) (sentences : list string) :
  sent_tokenize text = Returned sentences ->
  extract text = Returned (flat_map sentence_phrases sentences)
  /\ (forall sentence,
        sentence_phrases sentence
        = emitted "depression" depression_keywords sentence
          ++ emitted "anxiety" anxiety_keywords sentence
          ++ emitted "stress" stress_keywords sentence
        /\ List.length (sentence_phrases sentence) <= 3)
  /\ (forall ty keywords sentence,
        List.length (emitted ty keywords sentence) <= 1
        /\ (emitted ty keywords sentence = [] ->
            forall k, In k keywords -> contains k (lower sentence) = false)
        /\ (forall p, In p (emitted ty keywords sentence) ->
            phrase p = strip sentence /\ type p = ty
            /\ exists before after,
                 keywords = before ++ keyword p :: after
                 /\ contains (keyword p) (lower sentence) = true
                 /\ forall k, In k before ->
                      contains k (lower sentence) = false)).
Proof.
  intros H. split; [now apply find_concerning_phrases_returned|]. split.
  - intros sentence. split; [reflexivity|].
    unfold sentence_phrases. rewrite !length_app.
    pose proof (emitted_length "depression" depression_keywords sentence).
    pose proof (emitted_length "anxiety" anxiety_keywords sentence).
    pose proof (emitted_length "stress" stress_keywords sentence).
    lia.
  - intros ty keywords sentence. split; [apply emitted_length|]. split.
    + unfold emitted.
      destruct (first_match keywords (lower sentence)) eqn:E; [discriminate|].
      intros _. now apply first_match_none.
    + intros p Hp. apply emitted_phrase in Hp.
      destruct Hp as (Hph & Hty & Hkw).
      repeat split; [exact Hph | exact Hty | now apply first_match_first].
Qed.

(** C8: no extracted phrase is tagged "positive"; the tag is one of the
    three negative categories, the keyword comes from that category's list,
    and it is no entry of the positive list. *)
Theorem no_positive_phrase (text : string) (phrases : list ConcerningPhrase) :
  extract text = Returned phrases ->
  forall p, In p phrases ->
    type p <> "positive"
    /\ In (type p) ["depression"; "anxiety"; "stress"]
    /\ In (keyword p)
         (depression_keywords ++ anxiety_keywords ++ stress_keywords)
    /\ ~ In (keyword p) positive_keywords.
Proof using sent_tokenize.
  clear polarity_scores word_tokenize.
  unfold find_concerning_phrases.
  destruct (sent_tokenize text) as [sentences|]; [|discriminate].
  rewrite fold_scan_sentence. intros [= <-] p Hp. simpl in Hp.
  apply in_flat_map in Hp. destruct Hp as (sentence & _ & Hp).
  apply sentence_phrases_category in Hp.
  assert (K : In (keyword p) depression_keywords
              \/ In (keyword p) anxiety_keywords
              \/ In (keyword p) stress_keywords) by tauto.
  split; [|split; [|split]].
  - destruct Hp as [[-> _] | [[-> _] | [-> _]]]; discriminate.
  - destruct Hp as [[-> _] | [[-> _] | [-> _]]]; simpl; auto.
  - rewrite !in_app_iff. exact K.
  - now apply negative_keywords_not_positive.
Qed.

Lemma keyword_count_lower (keywords : list string) (t1 t2 : string) :
  lower t1 = lower t2 -> keyword_count keywords t1 = keyword_count keywords t2.
Proof.
  intros H. induction keywords as [|k rest IH]; simpl; [reflexivity|].
  now rewrite H, IH.
Qed.

Lemma safe_tokenize_lower (t1 t2 : string) :
  lower t1 = lower t2 -> tokenize t1 = tokenize t2.
Proof.
  intros H. unfold safe_tokenize, fallback_tokenize. now rewrite H.
Qed.

Lemma blank_of_lower (t1 t2 : string) :
  lower t1 = lower t2 -> blank t1 = blank t2.
Proof. intros H. now rewrite <- (blank_lower t1), H, blank_lower. Qed.

(** C9: two texts with the same lowercased form get the same keyword
    counts, word count, category scores and bands, overall score and
    assessment; and one is reported as empty exactly when the other is. *)
Theorem analysis_depends_on_lowercased_text (t1 t2 : string) :
  lower t1 = lower t2 ->
  List.length (snd (tokenize t1)) = List.length (snd (tokenize t2))
  /\ (forall now1 now2,
        analyze t1 now1 = Returned None <-> analyze t2 now2 = Returned None)
  /\ (forall now1 now2 r1 r2,
        analyze t1 now1 = Returned (Some r1) ->
        analyze t2 now2 = Returned (Some r2) ->
        depression r1 = depression r2
        /\ anxiety r1 = anxiety r2
        /\ stress r1 = stress r2
        /\ positive r1 = positive r2
        /\ overall_score r1 = overall_score r2
        /\ overall_assessment r1 = overall_assessment r2).
Proof.
  intros H. split; [now rewrite (safe_tokenize_lower _ _ H)|]. split.
  - intros now1 now2. rewrite !analyze_text_none_iff.
    now rewrite (blank_of_lower _ _ H).
  - intros now1 now2 r1 r2 H1 H2.
    apply analyze_text_returned in H1, H2. cbv zeta in H1, H2.
    destruct H1 as (_ & _ & _ & _ & _ & Hd1 & Ha1 & Hs1 & Hp1 & Ho1 & Hv1).
    destruct H2 as (_ & _ & _ & _ & _ & Hd2 & Ha2 & Hs2 & Hp2 & Ho2 & Hv2).
    rewrite (safe_tokenize_lower _ _ H) in Hd1, Ha1, Hs1, Hp1.
    rewrite (keyword_count_lower depression_keywords _ _ H) in Hd1.
    rewrite (keyword_count_lower anxiety_keywords _ _ H) in Ha1.
    rewrite (keyword_count_lower stress_keywords _ _ H) in Hs1.
    rewrite (keyword_count_lower positive_keywords _ _ H) in Hp1.
    assert (Ed : depression r1 = depression r2) by congruence.
    assert (Ea : anxiety r1 = anxiety r2) by congruence.
    assert (Es : stress r1 = stress r2) by congruence.
    assert (Ep : positive r1 = positive r2) by congruence.
    assert (Eo : overall_score r1 = overall_score r2).
    { rewrite Ho1, Ho2. unfold negative_mean. now rewrite Ed, Ea, Es. }
    repeat split; try assumption.
    now rewrite Hv1, Hv2, Eo, Ep.
Qed.

End Properties.

(** ** The analyzer on sample collaborators *)

Example builtins_on_samples :
  strip "  a b  " = "a b"
  /\ re_split_terminators "a.b!?c." = ["a"; "b"; "c"; ""]
  /\ re_findall_words "ab_c d-e 9" = ["ab_c"; "d"; "e"; "9"]
  /\ contains "sad" "sadness" = true
  /\ contains "what if" "whatif" = false
  /\ lower "I Feel SAD" = "i feel sad".
Proof. repeat split; reflexivity. Qed.

Example safe_tokenize_falls_back :
  safe_tokenize unavailable unavailable "Hello there. How ARE you?!  "
  = (["hello there"; "how are you"], ["hello"; "there"; "how"; "are"; "you"]).
Proof. reflexivity. Qed.

(** C1 as stated fails: one sentence that holds a depression keyword and an
    anxiety keyword yields two phrases, one per category. *)
Lemma find_concerning_phrases_two_for_one_sentence :
  one_sentence "I feel sad and anxious." = Returned ["I feel sad and anxious."]
  /\ find_concerning_phrases one_sentence "I feel sad and anxious."
     = Returned [ {| phrase := "I feel sad and anxious.";
                     type := "depression";
                     keyword := "sad" |};
                  {| phrase := "I feel sad and anxious.";
                     type := "anxiety";
                     keyword := "anxious" |} ]
  /\ ~ (forall (sent_tokenize : string -> outcome (list string))
               (text : string) (sentences : list string)
               (phrases : list ConcerningPhrase),
          sent_tokenize text = Returned sentences ->
          find_concerning_phrases sent_tokenize text = Returned phrases ->
          List.length phrases <= List.length sentences).
Proof.
  split; [reflexivity|]. split; [reflexivity|].
  intros H.
  specialize (H one_sentence "I feel sad and anxious." _ _ eq_refl eq_refl).
  simpl in H. lia.
Qed.

Lemma find_concerning_phrases_per_category_witness :
  find_concerning_phrases one_sentence "I feel sad and anxious."
  = Returned (flat_map sentence_phrases ["I feel sad and anxious."])
  /\ List.length (sentence_phrases "I feel sad and anxious.") <= 3.
Proof.
  split.
  - apply (find_concerning_phrases_per_category one_sentence
             "I feel sad and anxious." ["I feel sad and anxious."]).
    reflexivity.
  - apply (find_concerning_phrases_per_category one_sentence
             "I feel sad and anxious." ["I feel sad and anxious."]).
    reflexivity.
Defined.

Lemma category_scores_formula_and_bounds_witness :
  exists r,
    analyze_text flat_sentiment one_sentence regex_words
      "I feel so depressed and hopeless, I can't go on." "2024-01-01 12:00:00"
    = Returned (Some r)
    /\ count (depression r) = 3
    /\ (0 <= score (depression r) <= 1)%Q.
Proof.
  eexists. split; [vm_compute; reflexivity|].
  split; [reflexivity|].
  apply (category_scores_formula_and_bounds flat_sentiment one_sentence
           regex_words "I feel so depressed and hopeless, I can't go on."
           "2024-01-01 12:00:00" _ eq_refl).
  left. reflexivity.
Defined.

Lemma overall_score_is_negative_mean_witness :
  exists r,
    analyze_text flat_sentiment one_sentence regex_words
      "I feel sad and anxious." "2024-01-01 12:00:00"
    = Returned (Some r)
    /\ overall_score r
       = ((score (depression r) + score (anxiety r) + score (stress r)) / 3)%Q.
Proof.
  eexists. split; [vm_compute; reflexivity|].
  apply (proj1 (overall_score_is_negative_mean flat_sentiment one_sentence
                  regex_words)
           "I feel sad and anxious." "2024-01-01 12:00:00").
  reflexivity.
Defined.

Lemma no_positive_phrase_witness :
  exists phrases p,
    find_concerning_phrases one_sentence "I feel happy but sad."
    = Returned phrases
    /\ In p phrases /\ type p <> "positive".
Proof.
  eexists. eexists. split; [vm_compute; reflexivity|].
  split; [left; reflexivity|].
  apply (no_positive_phrase one_sentence "I feel happy but sad." _ eq_refl).
  left. reflexivity.
Defined.

Lemma analysis_depends_on_lowercased_text_witness :
  lower "I feel SAD." = lower "i FEEL sad."
  /\ exists r1 r2,
       analyze_text flat_sentiment one_sentence regex_words
         "I feel SAD." "2024-01-01 12:00:00" = Returned (Some r1)
       /\ analyze_text flat_sentiment one_sentence regex_words
            "i FEEL sad." "2024-01-02 08:30:00" = Returned (Some r2)
       /\ depression r1 = depression r2
       /\ overall_assessment r1 = overall_assessment r2.
Proof.
  split; [reflexivity|].
  eexists. eexists.
  split; [vm_compute; reflexivity|]. split; [vm_compute; reflexivity|].
  pose proof (analysis_depends_on_lowercased_text flat_sentiment one_sentence
                regex_words "I feel SAD." "i FEEL sad." eq_refl) as H.
  destruct H as (_ & _ & H).
  specialize (H "2024-01-01 12:00:00" "2024-01-02 08:30:00" _ _
                eq_refl eq_refl).
  split; apply H.
Defined.

(** C7, where the sentence tokenizer is unavailable: [safe_tokenize] falls
    back to the regular expressions, [find_concerning_phrases] calls
    [sent_tokenize] bare and raises, and so does [analyze_text]: a text that
    is not blank gets no record, and the history stays empty. *)
Theorem analyze_text_raises_without_tokenizer :
  blank "I feel sad." = false
  /\ safe_tokenize unavailable unavailable "I feel sad."
     = (["i feel sad"], ["i"; "feel"; "sad"])
  /\ find_concerning_phrases unavailable "I feel sad." = Raised
  /\ analyze_text flat_sentiment unavailable unavailable
       "I feel sad." "2024-01-01 12:00:00" = Raised
  /\ run flat_sentiment unavailable unavailable []
       [AnalyzeText "I feel sad." "2024-01-01 12:00:00"] = [].
Proof. repeat split; reflexivity. Qed.

(** With the sentence tokenizer at hand the same text gets its record, and
    a failing sentiment analyzer leaves the neutral scores in it. *)
Example analyze_text_neutral_sentiment :
  exists r,
    analyze_text unavailable one_sentence unavailable
      "I feel sad." "2024-01-01 12:00:00" = Returned (Some r)
    /\ sentiment r = {| compound := 0; neg := 0; neu := 1; pos := 0 |}
    /\ List.length (categories r) = 4.
Proof. eexists. split; [vm_compute; reflexivity|]. split; reflexivity. Qed.

Example analyze_text_blank_inputs :
  analyze_text flat_sentiment one_sentence regex_words "" "now"
  = Returned None
  /\ analyze_text flat_sentiment unavailable unavailable "   " "now"
     = Returned None.
Proof. split; reflexivity. Qed.

(** ** Further properties of the severity scorer *)

(** The divisor [max(total_words * 0.1, 1)] is a tenth of the word count,
    with texts under ten words treated as ten words long. *)
Lemma divisor_value (n : nat) :
  (Py.max (inject_Z (Z.of_nat n) * 0.1) 1
   == inject_Z (Z.of_nat (Nat.max n 10)) * 0.1)%Q.
Proof.
  unfold Py.max. destruct (Qlt_bool _ _) eqn:E.
  - apply Qlt_bool_iff in E.
    assert (H : (inject_Z (Z.of_nat n) < 10)%Q) by lra.
    change 10%Q with (inject_Z 10) in H. rewrite <- Zlt_Qlt in H.
    replace (Nat.max n 10) with 10 by lia. reflexivity.
  - apply not_true_iff_false in E. rewrite Qlt_bool_iff in E.
    assert (H : (10 <= inject_Z (Z.of_nat n))%Q) by lra.
    change 10%Q with (inject_Z 10) in H. rewrite <- Zle_Qle in H.
    replace (Nat.max n 10) with n by lia. reflexivity.
Qed.

(** A score reaches a threshold [t] of (0,1] exactly when the count reaches
    [t] tenths of the word count (of ten, for shorter texts). *)
Lemma score_ge_iff (t : Q) (c n : nat) :
  (0 < t)%Q -> (t <= 1)%Q ->
  ((t <= severity_score c n)%Q
   <-> (t * inject_Z (Z.of_nat (Nat.max n 10))
        <= 10 * inject_Z (Z.of_nat c))%Q).
Proof.
  intros Ht0 Ht1. unfold severity_score.
  assert (D := divisor_value n).
  assert (D1 := divisor_ge_1 (inject_Z (Z.of_nat n) * 0.1)).
  set (d := Py.max (inject_Z (Z.of_nat n) * 0.1) 1) in *.
  set (C := inject_Z (Z.of_nat c)).
  set (M := inject_Z (Z.of_nat (Nat.max n 10))) in *.
  assert (Hd : (0 < d)%Q) by lra.
  assert (Hq : (t <= C / d <-> t * d <= C)%Q).
  { split; intros H.
    - apply (Qmult_le_r _ _ d Hd) in H.
      unfold Qdiv in H. rewrite <- Qmult_assoc, (Qmult_comm (/ d)) in H.
      rewrite Qmult_inv_r, Qmult_1_r in H; [exact H | lra].
    - apply Qle_shift_div_l; assumption. }
  assert (Hm : (t * d <= C <-> t * M <= 10 * C)%Q).
  { rewrite D. split; intros H; lra. }
  rewrite <- Hm, <- Hq.
  unfold Py.min. destruct (Qlt_bool 1 (C / d)) eqn:E.
  - apply Qlt_bool_iff in E. split; intros; lra.
  - tauto.
Qed.

Ltac nat_of_threshold :=
  unfold Qle, Qmult, inject_Z; cbn [Qnum Qden]; lia.

Lemma threshold_30 (m c : nat) :
  (0.3 * inject_Z (Z.of_nat m) <= 10 * inject_Z (Z.of_nat c))%Q
  <-> 3 * m <= 100 * c.
Proof. nat_of_threshold. Qed.

Lemma threshold_15 (m c : nat) :
  (0.15 * inject_Z (Z.of_nat m) <= 10 * inject_Z (Z.of_nat c))%Q
  <-> 3 * m <= 200 * c.
Proof. nat_of_threshold. Qed.

Lemma threshold_05 (m c : nat) :
  (0.05 * inject_Z (Z.of_nat m) <= 10 * inject_Z (Z.of_nat c))%Q
  <-> m <= 200 * c.
Proof. nat_of_threshold. Qed.

Lemma threshold_1 (m c : nat) :
  (1 * inject_Z (Z.of_nat m) <= 10 * inject_Z (Z.of_nat c))%Q
  <-> m <= 10 * c.
Proof. nat_of_threshold. Qed.

(** X1: a category score is 0 exactly when the category has no keyword hit,
    whatever the number of words. *)
Theorem severity_score_zero_iff (c n : nat) :
  (severity_score c n == 0)%Q <-> c = 0.
Proof.
  assert (B := severity_score_bounds c n).
  destruct c as [|c].
  - split; [reflexivity | intros _].
    destruct (Qlt_le_dec 0 (severity_score 0 n)) as [H|H]; [|lra].
    exfalso.
    assert (T : (severity_score 0 n <= 1)%Q) by lra.
    pose proof (proj1 (score_ge_iff (severity_score 0 n) 0 n H T)
                  (Qle_refl _)) as K.
    change (inject_Z (Z.of_nat 0)) with 0%Q in K.
    assert (M : (1 <= inject_Z (Z.of_nat (Nat.max n 10)))%Q).
    { change 1%Q with (inject_Z 1). rewrite <- Zle_Qle. lia. }
    nra.
  - split; [intros E | discriminate]. exfalso.
    set (m := Nat.max n 10).
    assert (Hm : (0 < inject_Z (Z.of_nat m))%Q).
    { change 0%Q with (inject_Z 0). rewrite <- Zlt_Qlt. subst m. lia. }
    assert (Ht : (0 < / inject_Z (Z.of_nat m))%Q)
      by now apply Qinv_lt_0_compat.
    assert (Ht1 : (/ inject_Z (Z.of_nat m) <= 1)%Q).
    { apply Qle_shift_inv_r; [exact Hm|].
      rewrite Qmult_1_l. change 1%Q with (inject_Z 1).
      rewrite <- Zle_Qle. subst m. lia. }
    pose proof (proj2 (score_ge_iff _ (S c) n Ht Ht1)) as K.
    fold m in K.
    assert (G : (/ inject_Z (Z.of_nat m) <= severity_score (S c) n)%Q).
    { apply K. rewrite Qmult_comm, Qmult_inv_r; [|lra].
      assert (C : (1 <= inject_Z (Z.of_nat (S c)))%Q).
      { change 1%Q with (inject_Z 1). rewrite <- Zle_Qle. lia. }
      lra. }
    lra.
Qed.

(** X2: a category score is 1 exactly when there is a hit and the hits are
    at least a tenth of the words; in a text of at most ten words one hit
    is enough. *)
Theorem severity_score_saturates_iff (c n : nat) :
  (severity_score c n == 1)%Q <-> 1 <= c /\ n <= 10 * c.
Proof.
  assert (B := severity_score_bounds c n).
  assert (K : (1 <= severity_score c n)%Q <-> Nat.max n 10 <= 10 * c).
  { rewrite score_ge_iff by lra. apply threshold_1. }
  split.
  - intros E. assert (H : Nat.max n 10 <= 10 * c) by (apply K; lra). lia.
  - intros [H1 H2].
    assert (H : (1 <= severity_score c n)%Q) by (apply K; lia). lra.
Qed.

(** X3: more hits never lower a score and more words never raise it. *)
Theorem severity_score_monotone (c1 c2 n1 n2 : nat) :
  c1 <= c2 -> n2 <= n1 ->
  (severity_score c1 n1 <= severity_score c2 n2)%Q.
Proof.
  intros Hc Hn.
  assert (B1 := severity_score_bounds c1 n1).
  assert (B2 := severity_score_bounds c2 n2).
  destruct (Qlt_le_dec 0 (severity_score c1 n1)) as [H|H]; [|lra].
  assert (T : (severity_score c1 n1 <= 1)%Q) by lra.
  apply (score_ge_iff _ c2 n2 H T).
  pose proof (proj1 (score_ge_iff _ c1 n1 H T) (Qle_refl _)) as K.
  assert (M : (inject_Z (Z.of_nat (Nat.max n2 10))
               <= inject_Z (Z.of_nat (Nat.max n1 10)))%Q).
  { rewrite <- Zle_Qle. lia. }
  assert (C : (inject_Z (Z.of_nat c1) <= inject_Z (Z.of_nat c2))%Q).
  { rewrite <- Zle_Qle. lia. }
  nra.
Qed.

Lemma severity_score_monotone_witness :
  (severity_score 1 40 <= severity_score 2 12)%Q.
Proof. apply (severity_score_monotone 1 2 40 12); lia. Defined.

Lemma get_severity_lt_iff (s : Q) :
  (get_severity s = "High" <-> (0.3 <= s)%Q)
  /\ (get_severity s = "Moderate" <-> (0.15 <= s)%Q /\ ~ (0.3 <= s)%Q)
  /\ (get_severity s = "Mild" <-> (0.05 <= s)%Q /\ ~ (0.15 <= s)%Q)
  /\ (get_severity s = "Low" <-> ~ (0.05 <= s)%Q).
Proof.
  unfold get_severity.
  split; [|split; [|split]]; split_on_thresholds;
    (split; [intros H; try discriminate; try (split; lra); lra
            | intros H; try reflexivity; exfalso; lra]).
Qed.

(** X4: the band of a category in whole numbers, with [m] the word count
    raised to ten when smaller: High from 3 hits per 100 words, Moderate
    from 3 per 200, Mild from 1 per 200, Low below. *)
Theorem category_band_by_counts (c n : nat) :
  let m := Nat.max n 10 in
  let band := get_severity (severity_score c n) in
  (band = "High" <-> 3 * m <= 100 * c)
  /\ (band = "Moderate" <-> 3 * m <= 200 * c /\ 100 * c < 3 * m)
  /\ (band = "Mild" <-> m <= 200 * c /\ 200 * c < 3 * m)
  /\ (band = "Low" <-> 200 * c < m).
Proof.
  intros m band. subst band.
  destruct (get_severity_lt_iff (severity_score c n)) as (H & Mo & Mi & L).
  rewrite H, Mo, Mi, L.
  rewrite !score_ge_iff by lra.
  fold m. rewrite threshold_30, threshold_15, threshold_05. lia.
Qed.


(** ** Further properties of the assessment synthesizer *)

(** X5: the wording of the assessment follows the band of the overall
    score: the two "significant concern" texts for High, the two
    "moderate" texts for Moderate, the "mild" text for Mild, and the
    "positive" or "neutral" text for Low. *)
Theorem assessment_follows_overall_band (overall positive_score : Q) :
  let assessment := get_overall_assessment overall positive_score in
  (get_severity overall = "High"
   <-> In assessment
         ["Mixed emotions with significant concerns - consider professional support";
          "High concern detected - strongly recommend professional help"])
  /\ (get_severity overall = "Moderate"
      <-> In assessment
            ["Moderate concerns with positive elements - monitor closely";
             "Moderate concern - consider speaking with someone"])
  /\ (get_severity overall = "Mild"
      <-> assessment = "Mild concerns detected - practice self-care")
  /\ (get_severity overall = "Low"
      <-> In assessment
            ["Positive mental state - keep up the good work!";
             "Neutral state - maintain healthy habits"]).
Proof.
  unfold get_severity, get_overall_assessment.
  cbv zeta. split; [|split; [|split]]; split_on_thresholds;
    try lra;
    (split; intros H;
     [ try discriminate H; try reflexivity; simpl; auto
     | try reflexivity; exfalso; simpl in H;
       repeat (destruct H as [H|H]; try discriminate H); try discriminate H;
       try contradiction ]).
Qed.

(** ** Further properties of the records *)

Section RecordProperties.

Variable polarity_scores : string -> outcome SentimentScores.
Variable sent_tokenize : string -> outcome (list string).
Variable word_tokenize : string -> outcome (list string).

Local Abbreviation analyze :=
  (analyze_text polarity_scores sent_tokenize word_tokenize).


End RecordProperties.


(** ** Further properties of the keyword matcher and the phrase extractor *)

(** X7: a keyword count is positive exactly when some entry of the list is a
    substring of the lowercased text. *)
Theorem keyword_count_positive_iff (keywords : list string) (input : string) :
  0 < keyword_count keywords input
  <-> exists k before after,
        In k keywords /\ lower input = (before ++ k ++ after)%string.
Proof.
  induction keywords as [|k rest IH]; simpl.
  - split; [lia | intros (k & _ & _ & [] & _)].
  - destruct (contains k (lower input)) eqn:E.
    + split; [intros _ | lia].
      apply contains_iff in E. destruct E as (before & after & E).
      exists k, before, after. auto.
    + simpl. rewrite IH. split.
      * intros (k' & before & after & Hin & Eq).
        exists k', before, after. auto.
      * intros (k' & before & after & [<- | Hin] & Eq).
        -- assert (C : contains k (lower input) = true)
             by (apply contains_iff; eauto).
           congruence.
        -- exists k', before, after. auto.
Qed.

Lemma emitted_nil_iff (ty : string) (keywords : list string)
    (sentence : string) :
  emitted ty keywords sentence = []
  <-> forall k, In k keywords -> contains k (lower sentence) = false.
Proof.
  unfold emitted, first_match.
  destruct (find _ keywords) as [kw|] eqn:E.
  - split; [discriminate|]. intros H. apply find_some in E.
    destruct E as [Hin Hc]. rewrite (H _ Hin) in Hc. discriminate.
  - split; [|reflexivity]. intros _ k Hin. exact (find_none _ _ E k Hin).
Qed.

Lemma sentence_phrases_nil_iff (sentence : string) :
  sentence_phrases sentence = []
  <-> forall k, In k negative_keywords -> contains k (lower sentence) = false.
Proof.
  unfold sentence_phrases, negative_keywords. split.
  - intros H. apply app_eq_nil in H. destruct H as [H1 H].
    apply app_eq_nil in H. destruct H as [H2 H3].
    intros k Hin. rewrite !in_app_iff in Hin.
    destruct Hin as [Hin | [Hin | Hin]];
      [ exact (proj1 (emitted_nil_iff _ _ _) H1 k Hin)
      | exact (proj1 (emitted_nil_iff _ _ _) H2 k Hin)
      | exact (proj1 (emitted_nil_iff _ _ _) H3 k Hin) ].
  - intros H.
    rewrite (proj2 (emitted_nil_iff "depression" depression_keywords
                      sentence)),
      (proj2 (emitted_nil_iff "anxiety" anxiety_keywords sentence)),
      (proj2 (emitted_nil_iff "stress" stress_keywords sentence));
      [reflexivity | | | ];
      intros k Hin; apply H; rewrite !in_app_iff; auto.
Qed.

Lemma sentence_phrases_of_sentence (sentence : string)
    (p : ConcerningPhrase) :
  In p (sentence_phrases sentence) ->
  phrase p = strip sentence
  /\ In (keyword p) negative_keywords
  /\ contains (keyword p) (lower sentence) = true.
Proof.
  intros H. pose proof (sentence_phrases_category _ _ H) as C.
  unfold sentence_phrases in H. rewrite !in_app_iff in H.
  assert (E : phrase p = strip sentence
              /\ exists kws,
                   first_match kws (lower sentence) = Some (keyword p)).
  { destruct H as [H | [H | H]]; apply emitted_phrase in H;
      destruct H as (Hp & _ & Hk); eauto. }
  destruct E as (Hp & kws & Hk).
  apply first_match_first in Hk. destruct Hk as (_ & _ & _ & Hc & _).
  split; [exact Hp|]. split; [|exact Hc].
  unfold negative_keywords. rewrite !in_app_iff. tauto.
Qed.

(** X8: with a sentence tokenizer that returns, a sentence is flagged
    exactly when its lowercased form holds an entry of one of the three
    negative lists; a flagged phrase shows the stripped sentence in its
    own casing; no text gets more than three phrases per sentence. *)
Theorem flagged_sentences
    (sent_tokenize : string -> outcome (list string))
    (input : string) (sentences : list string) :
  sent_tokenize input = Returned sentences ->
  exists phrases,
    find_concerning_phrases sent_tokenize input = Returned phrases
    /\ List.length phrases <= 3 * List.length sentences
    /\ (forall p, In p phrases ->
          exists s, In s sentences /\ phrase p = strip s
                    /\ contains (keyword p) (lower s) = true)
    /\ (forall s, In s sentences ->
          ((exists p, In p phrases /\ phrase p = strip s
                      /\ contains (keyword p) (lower s) = true)
           <-> exists k, In k negative_keywords
                         /\ contains k (lower s) = true))
    /\ (phrases = []
        <-> forall s k, In s sentences -> In k negative_keywords ->
              contains k (lower s) = false).
Proof.
  intros H. exists (flat_map sentence_phrases sentences).
  split; [now apply find_concerning_phrases_returned|]. split.
  { clear H. induction sentences as [|s rest IH]; simpl; [lia|].
    rewrite length_app.
    assert (L : List.length (sentence_phrases s) <= 3).
    { unfold sentence_phrases. rewrite !length_app.
      pose proof (emitted_length "depression" depression_keywords s).
      pose proof (emitted_length "anxiety" anxiety_keywords s).
      pose proof (emitted_length "stress" stress_keywords s).
      lia. }
    lia. }
  split.
  { intros p Hp. apply in_flat_map in Hp. destruct Hp as (s & Hs & Hp).
    apply sentence_phrases_of_sentence in Hp.
    exists s. tauto. }
  split.
  { intros s Hs. split.
    - intros (p & Hp & _ & Hc). apply in_flat_map in Hp.
      destruct Hp as (s' & _ & Hp).
      apply sentence_phrases_of_sentence in Hp.
      exists (keyword p). tauto.
    - intros (k & Hk & Hc).
      destruct (sentence_phrases s) as [|p ps] eqn:E.
      + rewrite (proj1 (sentence_phrases_nil_iff s) E k Hk) in Hc.
        discriminate.
      + assert (Hp : In p (sentence_phrases s)) by (rewrite E; now left).
        exists p. split.
        * apply in_flat_map. eauto.
        * apply sentence_phrases_of_sentence in Hp. tauto. }
  split.
  - intros E s k Hs Hk.
    apply (proj1 (sentence_phrases_nil_iff s)); [|exact Hk].
    destruct (sentence_phrases s) as [|p ps] eqn:Es; [reflexivity|].
    assert (Hp : In p (flat_map sentence_phrases sentences)).
    { apply in_flat_map. exists s. rewrite Es. split; [exact Hs | now left]. }
    rewrite E in Hp. destruct Hp.
  - intros Hall. clear H. induction sentences as [|s rest IH]; [reflexivity|].
    simpl. rewrite (proj2 (sentence_phrases_nil_iff s)).
    + apply IH. intros s' k Hs'. apply Hall. now right.
    + intros k. apply Hall. now left.
Qed.

Lemma flagged_sentences_witness :
  exists phrases,
    find_concerning_phrases one_sentence "I feel Hopeless today"
    = Returned phrases
    /\ List.length phrases <= 3 * 1.
Proof.
  destruct (flagged_sentences one_sentence "I feel Hopeless today"
              ["I feel Hopeless today"] eq_refl)
    as (phrases & H & L & _).
  exists phrases. split; [exact H | exact L].
Defined.

(** ** The fallback tokenizer *)

Lemma string_forall_append (test : ascii -> bool) (a b : string) :
  string_forall test (a ++ b)
  = string_forall test a && string_forall test b.
Proof.
  induction a as [|c a IH]; simpl; [reflexivity|].
  now rewrite IH, andb_assoc.
Qed.

Lemma lower_char_idempotent (c : ascii) :
  lower_char (lower_char c) = lower_char c.
Proof. destruct c as [[] [] [] [] [] [] [] []]; reflexivity. Qed.

Lemma lower_is_lowercase (s : string) :
  string_forall (fun c => Ascii.eqb (lower_char c) c) (lower s) = true.
Proof.
  induction s as [|c s IH]; simpl; [reflexivity|].
  now rewrite lower_char_idempotent, Ascii.eqb_refl, IH.
Qed.

Lemma lowercase_fixed (s : string) :
  string_forall (fun c => Ascii.eqb (lower_char c) c) s = true ->
  lower s = s.
Proof.
  induction s as [|c s IH]; simpl; [reflexivity|].
  rewrite andb_true_iff. intros [Hc Hs].
  apply Ascii.eqb_eq in Hc. now rewrite Hc, IH.
Qed.

Lemma re_findall_from_forall (test : ascii -> bool) (s cur : string) :
  string_forall test cur = true ->
  string_forall test s = true ->
  Forall (fun w => string_forall test w = true) (re_findall_from cur s).
Proof.
  revert cur. induction s as [|c s IH]; intros cur Hcur Hs; simpl.
  - destruct (truthy cur); repeat constructor. exact Hcur.
  - simpl in Hs. apply andb_true_iff in Hs. destruct Hs as [Hc Hs].
    destruct (is_word_char c).
    + apply IH; [|exact Hs].
      rewrite string_forall_append, Hcur. simpl. now rewrite Hc.
    + destruct (truthy cur); [constructor; [exact Hcur|]|];
        apply IH; auto.
Qed.

Lemma re_findall_from_words (s cur : string) :
  string_forall is_word_char cur = true ->
  Forall (fun w => w <> "" /\ string_forall is_word_char w = true)
    (re_findall_from cur s).
Proof.
  revert cur. induction s as [|c s IH]; intros cur Hcur; simpl.
  - destruct cur; simpl; repeat constructor; [discriminate | exact Hcur].
  - destruct (is_word_char c) eqn:E.
    + apply IH. rewrite string_forall_append, Hcur. simpl. now rewrite E.
    + destruct cur as [|d cur]; simpl.
      * now apply IH.
      * constructor; [split; [discriminate | exact Hcur] | now apply IH].
Qed.

Lemma re_findall_from_concat (s cur : string) :
  String.concat "" (re_findall_from cur s)
  = (cur ++ string_filter is_word_char s)%string.
Proof.
  assert (C : forall w ws, String.concat "" (w :: ws)
                           = (w ++ String.concat "" ws)%string).
  { intros w [|w' ws]; simpl; [|reflexivity].
    induction w; simpl; congruence. }
  assert (R : forall a : string, (a ++ "")%string = a).
  { induction a; simpl; congruence. }
  revert cur. induction s as [|c s IH]; intros cur.
  - simpl. destruct cur; simpl; [reflexivity|]. now rewrite R.
  - simpl. destruct (is_word_char c).
    + rewrite IH, append_assoc. reflexivity.
    + destruct cur as [|d cur].
      * simpl. apply IH.
      * cbn [truthy]. rewrite C, IH. reflexivity.
Qed.

(** X9: every word token of the fallback tokenizer is non-empty, is made of
    word characters only and is in lower case; read one after the other,
    the tokens are the word characters of the lowercased text, none lost
    and none added. *)
Theorem fallback_words (input : string) :
  let words := snd (fallback_tokenize input) in
  Forall (fun w => w <> "" /\ string_forall is_word_char w = true
                   /\ lower w = w) words
  /\ String.concat "" words = string_filter is_word_char (lower input).
Proof.
  cbv zeta. unfold fallback_tokenize, re_findall_words. cbn [snd]. split.
  - pose proof (re_findall_from_words (lower input) "" eq_refl) as W.
    pose proof (re_findall_from_forall _ (lower input) "" eq_refl
                  (lower_is_lowercase input)) as L.
    rewrite Forall_forall in *. intros w Hw.
    destruct (W w Hw) as [Hne Hwc].
    repeat split; [exact Hne | exact Hwc |].
    apply lowercase_fixed. exact (L w Hw).
  - apply re_findall_from_concat.
Qed.

Lemma lstrip_length (s : string) :
  String.length (lstrip s) <= String.length s.
Proof.
  induction s as [|c s IH]; simpl; [lia|].
  destruct (isspace c); simpl; lia.
Qed.

Lemma lstrip_idempotent (s : string) : lstrip (lstrip s) = lstrip s.
Proof.
  induction s as [|c s IH]; simpl; [reflexivity|].
  destruct (isspace c) eqn:E; [exact IH|]. simpl. now rewrite E.
Qed.

Lemma rstrip_idempotent (s : string) : rstrip (rstrip s) = rstrip s.
Proof.
  induction s as [|c s IH]; [reflexivity|].
  cbn [rstrip]. destruct (rstrip s) as [|d kept] eqn:E.
  - destruct (isspace c) eqn:Ec; [reflexivity|].
    cbn [rstrip]. now rewrite Ec.
  - cbn [rstrip]. cbn [rstrip] in IH.
    destruct (rstrip kept) as [|e kept'] eqn:Ek.
    + destruct (isspace d); [discriminate|].
      injection IH as ->. reflexivity.
    + injection IH as ->. reflexivity.
Qed.

Lemma lstrip_rstrip_clean (s : string) :
  lstrip s = s -> lstrip (rstrip s) = rstrip s.
Proof.
  destruct s as [|c s]; [reflexivity|].
  intros H. assert (Ec : isspace c = false).
  { destruct (isspace c) eqn:E; [|reflexivity].
    simpl in H. rewrite E in H.
    pose proof (lstrip_length s) as L. rewrite H in L. simpl in L. lia. }
  cbn [rstrip]. destruct (rstrip s); rewrite ?Ec; simpl; now rewrite Ec.
Qed.

(** [strip] leaves a stripped string as it is. *)
Lemma strip_idempotent (s : string) : strip (strip s) = strip s.
Proof.
  unfold strip.
  rewrite (lstrip_rstrip_clean (lstrip s) (lstrip_idempotent s)).
  apply rstrip_idempotent.
Qed.

Lemma lstrip_forall (test : ascii -> bool) (s : string) :
  string_forall test s = true -> string_forall test (lstrip s) = true.
Proof.
  induction s as [|c s IH]; simpl; [auto|].
  rewrite andb_true_iff. intros [Hc Hs].
  destruct (isspace c); [auto|]. simpl. now rewrite Hc, Hs.
Qed.

Lemma rstrip_forall (test : ascii -> bool) (s : string) :
  string_forall test s = true -> string_forall test (rstrip s) = true.
Proof.
  induction s as [|c s IH]; [auto|].
  cbn [string_forall rstrip]. rewrite andb_true_iff. intros [Hc Hs].
  specialize (IH Hs). destruct (rstrip s).
  - destruct (isspace c); simpl; [reflexivity | now rewrite Hc].
  - cbn [string_forall]. cbn [string_forall] in IH. now rewrite Hc, IH.
Qed.

Lemma strip_forall (test : ascii -> bool) (s : string) :
  string_forall test s = true -> string_forall test (strip s) = true.
Proof. intros H. unfold strip. now apply rstrip_forall, lstrip_forall. Qed.

Lemma re_split_from_forall (test : ascii -> bool) (s cur : string)
    (in_run : bool) :
  string_forall test cur = true ->
  string_forall test s = true ->
  Forall (fun piece => string_forall test piece = true)
    (re_split_from cur in_run s).
Proof.
  revert cur in_run. induction s as [|c s IH]; intros cur in_run Hcur Hs.
  - simpl. repeat constructor. exact Hcur.
  - simpl in Hs. apply andb_true_iff in Hs. destruct Hs as [Hc Hs]. simpl.
    destruct (is_terminator c).
    + destruct in_run; [now apply IH|].
      constructor; [exact Hcur | now apply IH].
    + apply IH; [|exact Hs].
      rewrite string_forall_append, Hcur. simpl. now rewrite Hc.
Qed.

Lemma re_split_from_no_terminator (s cur : string) (in_run : bool) :
  string_forall (fun c => negb (is_terminator c)) cur = true ->
  Forall (fun piece =>
            string_forall (fun c => negb (is_terminator c)) piece = true)
    (re_split_from cur in_run s).
Proof.
  revert cur in_run. induction s as [|c s IH]; intros cur in_run Hcur.
  - simpl. repeat constructor. exact Hcur.
  - simpl. destruct (is_terminator c) eqn:E.
    + destruct in_run; [now apply IH|].
      constructor; [exact Hcur | now apply IH].
    + apply IH. rewrite string_forall_append, Hcur. simpl. now rewrite E.
Qed.

(** X10: every sentence of the fallback tokenizer is non-empty, has no
    white space at either end, holds none of the terminators [.], [!], [?]
    and is in lower case. *)
Theorem fallback_sentences (input : string) :
  Forall (fun s => s <> "" /\ strip s = s
                   /\ string_forall (fun c => negb (is_terminator c)) s = true
                   /\ lower s = s)
    (fst (fallback_tokenize input)).
Proof.
  unfold fallback_tokenize, re_split_terminators. cbn [fst].
  pose proof (re_split_from_no_terminator (lower input) "" false eq_refl)
    as T.
  pose proof (re_split_from_forall _ (lower input) "" false eq_refl
                (lower_is_lowercase input)) as L.
  rewrite Forall_forall in *. intros s Hs.
  apply in_map_iff in Hs. destruct Hs as (piece & <- & Hp).
  apply filter_In in Hp. destruct Hp as [Hp Htruthy].
  split; [|split; [|split]].
  - intros E. rewrite E in Htruthy. discriminate.
  - apply strip_idempotent.
  - apply strip_forall. exact (T piece Hp).
  - apply lowercase_fixed, strip_forall. exact (L piece Hp).
Qed.

Lemma word_char_lower (c : ascii) :
  is_word_char c = false -> is_word_char (lower_char c) = false.
Proof.
  destruct c as [[] [] [] [] [] [] [] []]; vm_compute; intros H;
    first [reflexivity | discriminate H].
Qed.

Lemma space_or_terminator_not_word (c : ascii) :
  isspace c || is_terminator c = true -> is_word_char c = false.
Proof.
  destruct c as [[] [] [] [] [] [] [] []]; vm_compute; intros H;
    first [reflexivity | discriminate H].
Qed.

Lemma space_or_terminator_lower (c : ascii) :
  isspace c || is_terminator c = true ->
  is_terminator (lower_char c) = false ->
  isspace (lower_char c) = true.
Proof.
  destruct c as [[] [] [] [] [] [] [] []]; vm_compute; intros H1 H2;
    first [reflexivity | discriminate H1 | discriminate H2].
Qed.

Lemma blank_append_char (cur : string) (c : ascii) :
  blank cur = true -> isspace c = true ->
  blank (cur ++ String c "") = true.
Proof.
  intros Hcur Hc. induction cur as [|d cur IH].
  - cbn [append blank]. now rewrite Hc.
  - cbn [append blank]. cbn [blank] in Hcur.
    apply andb_true_iff in Hcur. destruct Hcur as [Hd Hcur].
    now rewrite Hd, IH.
Qed.

(** X11: a text without word characters has no word token, and a text
    that is only white space and terminators has no sentence either: the
    fallback yields two empty lists. *)
Theorem fallback_of_empty_text (input : string) :
  (string_forall (fun c => negb (is_word_char c)) input = true ->
   snd (fallback_tokenize input) = [])
  /\ (string_forall (fun c => isspace c || is_terminator c) input = true ->
      fallback_tokenize input = ([], [])).
Proof.
  assert (W : forall s,
             string_forall (fun c => negb (is_word_char c)) s = true ->
             re_findall_from "" (lower s) = []).
  { induction s as [|c s IH]; [reflexivity|].
    cbn [string_forall lower re_findall_from].
    rewrite andb_true_iff. intros [Hc Hs].
    apply negb_true_iff in Hc. rewrite (word_char_lower c Hc).
    cbn [truthy]. now apply IH. }
  assert (K : forall s,
             string_forall (fun c => isspace c || is_terminator c) s = true ->
             string_forall (fun c => negb (is_word_char c)) s = true).
  { induction s as [|c s IH]; [reflexivity|].
    cbn [string_forall]. rewrite !andb_true_iff. intros [Hc Hs].
    split; [|now apply IH].
    now rewrite (space_or_terminator_not_word c Hc). }
  split.
  - intros H. unfold fallback_tokenize, re_findall_words. cbn [snd].
    now apply W.
  - intros H.
    unfold fallback_tokenize, re_findall_words, re_split_terminators.
    rewrite (W _ (K _ H)). f_equal.
    assert (S : forall s cur in_run,
               blank cur = true ->
               string_forall (fun c => isspace c || is_terminator c) s = true ->
               Forall (fun piece => blank piece = true)
                 (re_split_from cur in_run (lower s))).
    { clear. induction s as [|c s IH]; intros cur in_run Hcur Hs.
      - cbn [lower re_split_from]. repeat constructor. exact Hcur.
      - cbn [string_forall] in Hs. apply andb_true_iff in Hs.
        destruct Hs as [Hc Hs]. cbn [lower re_split_from].
        destruct (is_terminator (lower_char c)) eqn:E.
        + destruct in_run; [now apply IH|].
          constructor; [exact Hcur | now apply IH].
        + apply IH; [|exact Hs].
          apply blank_append_char; [exact Hcur|].
          now apply space_or_terminator_lower. }
    specialize (S input "" false eq_refl H).
    induction S as [|piece pieces Hb _ IH]; [reflexivity|].
    cbn [filter]. rewrite strip_truthy, Hb. cbn [negb]. exact IH.
Qed.

Lemma fallback_of_empty_text_witness :
  fallback_tokenize " ?! ... " = ([], []).
Proof. apply (fallback_of_empty_text " ?! ... "). reflexivity. Defined.

(** ** The history of analyses *)

Section HistoryProperties.

Variable polarity_scores : string -> outcome SentimentScores.
Variable sent_tokenize : string -> outcome (list string).
Variable word_tokenize : string -> outcome (list string).

Local Abbreviation analyze :=
  (analyze_text polarity_scores sent_tokenize word_tokenize).
Local Abbreviation step :=
  (main_step polarity_scores sent_tokenize word_tokenize).
Local Abbreviation session :=
  (run polarity_scores sent_tokenize word_tokenize).

(** X12: the "Analyze Text" button either warns about a whitespace-only
    text and leaves the history as it is, or appends one record, made from
    that text at that time, after the records already there. *)
Theorem analyze_button_appends (history history' : list AnalysisRecord)
    (input now msg : string) :
  step history (AnalyzeText input now) = Returned (history', msg) ->
  (blank input = true /\ history' = history
   /\ msg = "Please enter some text to analyze.")
  \/ (blank input = false
      /\ exists r, analyze input now = Returned (Some r)
                   /\ history' = history ++ [r]
                   /\ text r = input /\ timestamp r = now
                   /\ msg = "Analysis completed successfully!").
Proof.
  unfold main_step. rewrite strip_truthy.
  destruct (blank input) eqn:B; simpl.
  - intros [= <- <-]. left. auto.
  - destruct (analyze input now) as [[r|]|] eqn:E.
    + intros [= <- <-]. right. split; [reflexivity|]. exists r.
      apply analyze_text_returned in E. cbv zeta in E.
      destruct E as (_ & _ & Ht & Hx & _). auto.
    + apply analyze_text_none_iff in E. congruence.
    + discriminate.
Qed.

(** X13: every record kept in the history is consistent with itself: its
    text is not whitespace-only, each of its four bands is the band of the
    score stored beside it, each score lies between 0 and 1, and its
    assessment is the one of its overall score and positive score. *)
Theorem stored_records_consistent (actions : list action) :
  Forall (fun r =>
            blank (text r) = false
            /\ (forall c, In c (categories r) ->
                  severity c = get_severity (score c)
                  /\ (0 <= score c <= 1)%Q)
            /\ overall_assessment r
               = get_overall_assessment (overall_score r)
                   (score (positive r)))
    (session [] actions).
Proof.
  apply run_history; [|constructor].
  intros input now r H. apply analyze_text_returned in H. cbv zeta in H.
  destruct H as (Hb & _ & _ & Ht & _ & Hd & Ha & Hs & Hp & _ & Hv).
  split; [now rewrite Ht|]. split; [|exact Hv].
  unfold categories. rewrite Hd, Ha, Hs, Hp.
  intros c [<- | [<- | [<- | [<- | []]]]]; cbn [score severity];
    (split; [reflexivity | apply severity_score_bounds]).
Qed.

End HistoryProperties.

Lemma analyze_button_appends_witness :
  blank "I feel sad." = false
  /\ exists r,
       analyze_text flat_sentiment one_sentence regex_words
         "I feel sad." "2024-01-01 12:00:00" = Returned (Some r)
       /\ text r = "I feel sad.".
Proof.
  destruct (analyze_button_appends flat_sentiment one_sentence regex_words
              [] _ "I feel sad." "2024-01-01 12:00:00" _ eq_refl)
    as [(B & _) | (B & r & E & _ & T & _)].
  - discriminate B.
  - split; [exact B|]. exists r. split; [exact E | exact T].
Defined.

(** ** The user registry *)

Lemma dict_get_set_eq {V : Type} (d : dict V) (k : string) (v : V) :
  dict_get (dict_set d k v) k = Some v.
Proof.
  induction d as [|[k' v'] d IH]; simpl.
  - now rewrite String.eqb_refl.
  - destruct (String.eqb k' k) eqn:E; simpl; now rewrite E.
Qed.

Lemma dict_get_set_ne {V : Type} (d : dict V) (k k' : string) (v : V) :
  k <> k' -> dict_get (dict_set d k v) k' = dict_get d k'.
Proof.
  intros N. induction d as [|[k0 v0] d IH]; simpl.
  - destruct (String.eqb k k') eqn:E; [|reflexivity].
    apply String.eqb_eq in E. contradiction.
  - destruct (String.eqb k0 k) eqn:E; simpl.
    + apply String.eqb_eq in E. subst k0.
      destruct (String.eqb k k') eqn:E'; [|reflexivity].
      apply String.eqb_eq in E'. contradiction.
    + now rewrite IH.
Qed.

Lemma dict_has_true {V : Type} (d : dict V) (k : string) :
  dict_has d k = true <-> exists v, dict_get d k = Some v.
Proof.
  unfold dict_has. destruct (dict_get d k) as [v|].
  - split; eauto.
  - split; [discriminate | intros [v H]; discriminate].
Qed.

Section AccountProperties.

Variable sha256_hexdigest : string -> string.

Local Abbreviation hash := (hash_password sha256_hexdigest).
Local Abbreviation create := (create_user sha256_hexdigest).
Local Abbreviation verify := (verify_user sha256_hexdigest).

(** X14: a user that was created can log in with the password given at
    creation; the entry holds the hash of that password, the e-mail and the
    time of creation, and the entries of the other users are untouched. *)
Theorem create_then_verify (db db' : dict User)
    (username pw mail now message : string) :
  create db username pw mail now = (db', (true, message)) ->
  verify db' username pw = (true, "Login successful")
  /\ dict_get db username = None
  /\ dict_get db' username
     = Some {| password := hash pw; email := mail; created_at := now |}
  /\ forall other, other <> username ->
       dict_get db' other = dict_get db other.
Proof.
  unfold create_user, dict_has.
  destruct (dict_get db username) eqn:G; [discriminate|].
  intros [= <- _]. split; [|split; [reflexivity|split]].
  - unfold verify_user. rewrite dict_get_set_eq.
    now rewrite String.eqb_refl.
  - apply dict_get_set_eq.
  - intros other N. apply dict_get_set_ne. congruence.
Qed.

(** X15: creating a user under a name that is taken fails with "Username
    already exists" and leaves the registry as it was, so the password of
    the first owner stays valid. *)
Theorem create_existing_rejected (db : dict User)
    (username pw mail now : string) (owner : User) :
  dict_get db username = Some owner ->
  create db username pw mail now
  = (db, (false, "Username already exists")).
Proof. intros H. unfold create_user, dict_has. now rewrite H. Qed.

Lemma verify_user_success (db : dict User) (username pw : string) :
  verify db username pw = (true, "Login successful")
  <-> exists user, dict_get db username = Some user
                   /\ password user = hash pw.
Proof.
  unfold verify_user.
  destruct (dict_get db username) as [[stored mail made]|] eqn:G.
  - destruct (String.eqb stored (hash pw)) eqn:E.
    + apply String.eqb_eq in E. split; [|reflexivity].
      intros _. eexists. split; [reflexivity | exact E].
    + apply String.eqb_neq in E. split; [discriminate|].
      intros (user & [= <-] & N). simpl in N. contradiction.
  - split; [discriminate | intros (user & H & _); discriminate].
Qed.

(** X16: what [verify_user] answers: "User not found" exactly for a name
    without entry, "Login successful" exactly when the stored string is the
    hash of the given password, "Invalid password" otherwise; a password
    with the same hash as the registered one is accepted. *)
Theorem verify_user_answers (db : dict User) (username pw : string) :
  (verify db username pw = (false, "User not found")
   <-> dict_get db username = None)
  /\ (verify db username pw = (true, "Login successful")
      <-> exists user, dict_get db username = Some user
                       /\ password user = hash pw)
  /\ (verify db username pw = (false, "Invalid password")
      <-> exists user, dict_get db username = Some user
                       /\ password user <> hash pw).
Proof.
  unfold verify_user.
  destruct (dict_get db username) as [[stored mail made]|] eqn:G.
  - destruct (String.eqb stored (hash pw)) eqn:E.
    + apply String.eqb_eq in E. repeat split; try discriminate.
      * intros _. eexists. split; [reflexivity | exact E].
      * intros (user & [= <-] & N). simpl in N. contradiction.
    + apply String.eqb_neq in E. repeat split; try discriminate.
      * intros (user & [= <-] & N). simpl in N. contradiction.
      * intros _. eexists. split; [reflexivity | exact E].
  - repeat split; try discriminate;
      intros (user & H & _); discriminate.
Qed.

End AccountProperties.

Lemma create_then_verify_witness :
  verify_user (fun s => s) [("ann", {| password := "pw1"; email := "a@x";
                                       created_at := "t0" |});
                            ("bob", {| password := "s3cret"; email := "b@x";
                                       created_at := "t1" |})]
    "bob" "s3cret"
  = (true, "Login successful").
Proof.
  apply (create_then_verify (fun s => s)
           [("ann", {| password := "pw1"; email := "a@x";
                       created_at := "t0" |})]
           _ "bob" "s3cret" "b@x" "t1" "User created successfully").
  reflexivity.
Defined.

Lemma create_existing_rejected_witness :
  create_user (fun s => s)
    [("ann", {| password := "pw1"; email := "a@x"; created_at := "t0" |})]
    "ann" "other" "z@x" "t9"
  = ([("ann", {| password := "pw1"; email := "a@x"; created_at := "t0" |})],
     (false, "Username already exists")).
Proof.
  apply (create_existing_rejected (fun s => s) _ "ann" "other" "z@x" "t9"
           {| password := "pw1"; email := "a@x"; created_at := "t0" |}).
  reflexivity.
Defined.

(** ** The session: login, signup, logout *)

Lemma truthy_iff (s : string) : truthy s = true <-> s <> "".
Proof. destruct s; simpl; split; congruence. Qed.

(** A branch of the signup form that shows an error. *)
Ltac signup_rejected :=
  do 3 (split; [reflexivity|]); split;
  [ let V := fresh "V" in
    intros V; exfalso;
    destruct V as (V1 & V2 & V3 & V4 & V5 & V6 & V7);
    apply (proj2 (truthy_iff _)) in V1, V2, V3, V4;
    apply (proj2 (String.eqb_eq _ _)) in V5;
    congruence
  | intros _; split; [reflexivity | eexists; reflexivity] ].

Section SessionProperties.

Variable sha256_hexdigest : string -> string.
Variable polarity_scores : string -> outcome SentimentScores.
Variable sent_tokenize : string -> outcome (list string).
Variable word_tokenize : string -> outcome (list string).

Local Abbreviation hash := (hash_password sha256_hexdigest).
Local Abbreviation verify := (verify_user sha256_hexdigest).
Local Abbreviation auth_page := (show_auth_page sha256_hexdigest).
Local Abbreviation press :=
  (main sha256_hexdigest polarity_scores sent_tokenize word_tokenize).
Local Abbreviation session :=
  (session_after sha256_hexdigest polarity_scores sent_tokenize
     word_tokenize).

(** X17: the signup form creates an account exactly when the four fields
    are filled, the two passwords agree, the terms are accepted and the
    name is free; the account then holds the hash of the password.  In every
    other case the registry is unchanged and an error is shown.  Signing up
    never logs anybody in. *)
Theorem signup_creates_account_iff (st : SessionState)
    (username mail pw confirm : string) (terms : bool) (now : string) :
  let result :=
    auth_page st (SignupSubmit username mail pw confirm terms now) in
  let valid :=
    username <> "" /\ mail <> "" /\ pw <> "" /\ confirm <> ""
    /\ pw = confirm /\ terms = true
    /\ dict_get (users_db st) username = None in
  user_logged_in (fst result) = user_logged_in st
  /\ current_user (fst result) = current_user st
  /\ analysis_history (fst result) = analysis_history st
  /\ (valid ->
      dict_get (users_db (fst result)) username
      = Some {| password := hash pw; email := mail; created_at := now |}
      /\ snd result
         = [st_success "User created successfully";
            st_info "You can now login with your credentials"])
  /\ (~ valid ->
      users_db (fst result) = users_db st
      /\ exists message, snd result = [st_error message]).
Proof.
  cbv zeta. unfold show_auth_page, create_user, dict_has.
  destruct (truthy username) eqn:T1; [|simpl; signup_rejected].
  destruct (truthy mail) eqn:T2; [|simpl; signup_rejected].
  destruct (truthy pw) eqn:T3; [|simpl; signup_rejected].
  destruct (truthy confirm) eqn:T4; [|simpl; signup_rejected].
  destruct (String.eqb pw confirm) eqn:E; [|simpl; signup_rejected].
  destruct terms eqn:T; [|simpl; signup_rejected].
  destruct (dict_get (users_db st) username) eqn:G;
    [simpl; signup_rejected|].
  simpl. do 3 (split; [reflexivity|]). split.
  - intros _. split; [apply dict_get_set_eq | reflexivity].
  - intros N. exfalso. apply N.
    apply truthy_iff in T1, T2, T3, T4. apply String.eqb_eq in E. auto 10.
Qed.

Lemma press_keeps_accounts (st : SessionState) (e : event)
    (username : string) (user : User) :
  dict_get (users_db st) username = Some user ->
  dict_get (users_db (press st e)) username = Some user.
Proof.
  intros H. unfold main.
  destruct (user_logged_in st); simpl.
  - destruct e as [ae | [input now| |]]; cbn -[main_step]; try exact H.
    destruct (main_step _ _ _ _ _) as [[h msg]|]; simpl; exact H.
  - destruct e as [[u p | u p | u mail pw confirm terms now] | a];
      simpl; try exact H.
    + destruct (truthy u && truthy p); [|exact H].
      destruct (verify (users_db st) u p) as [[] message]; exact H.
    + destruct (truthy u && truthy mail && truthy pw && truthy confirm);
        [|exact H].
      destruct (negb (String.eqb pw confirm)); [exact H|].
      destruct (negb terms); [exact H|].
      unfold create_user, dict_has.
      destruct (dict_get (users_db st) u) eqn:G; simpl; [exact H|].
      rewrite dict_get_set_ne; [exact H | congruence].
Qed.

(** X18: nothing in the application changes or removes an account:
    credentials that are accepted once are accepted after any further
    sequence of button presses. *)
Theorem credentials_keep_working (st : SessionState)
    (username pw : string) (events : list event) :
  verify (users_db st) username pw = (true, "Login successful") ->
  verify (users_db (fold_left press events st)) username pw
  = (true, "Login successful").
Proof.
  revert st. induction events as [|e rest IH]; intros st H; simpl.
  - exact H.
  - apply IH.
    apply (verify_user_success sha256_hexdigest) in H.
    destruct H as (user & G & P).
    apply (verify_user_success sha256_hexdigest).
    exists user. split; [now apply press_keeps_accounts | exact P].
Qed.

Lemma press_invariant (st : SessionState) (e : event) :
  session_ok st -> session_ok (press st e).
Proof.
  intros Hinv. pose proof Hinv as (Hout & Hin & Hnames).
  unfold main. destruct (user_logged_in st) eqn:L; simpl.
  - destruct (Hin eq_refl) as (cu & cuser & Hc & Hne & Hg).
    assert (Stay : forall h : list AnalysisRecord,
               session_ok {| analysis_history := h;
                             user_logged_in := true;
                             current_user := current_user st;
                             show_signup := show_signup st;
                             users_db := users_db st |}).
    { intros h. unfold session_ok. simpl.
      split; [discriminate|]. split; [|exact Hnames].
      intros _. exists cu, cuser. auto. }
    destruct e as [ae | [input now| |]]; cbn -[main_step].
    + exact Hinv.
    + destruct (main_step _ _ _ _ _) as [[h msg]|];
        [apply Stay | exact Hinv].
    + destruct (main_step _ _ _ _ _) as [[h msg]|];
        [apply Stay | exact Hinv].
    + unfold session_ok. simpl.
      split; [auto|]. split; [discriminate | exact Hnames].
  - destruct (Hout eq_refl) as (Hh & Hc).
    destruct e as [[u p | u p | u mail pw confirm terms now] | a]; simpl;
      try exact Hinv.
    + destruct (truthy u) eqn:Tu; simpl; [|exact Hinv].
      destruct (truthy p); simpl; [|exact Hinv].
      destruct (verify (users_db st) u p) as [[] message] eqn:V; simpl;
        [|exact Hinv].
      unfold session_ok. simpl.
      split; [discriminate|]. split; [|exact Hnames].
      intros _. unfold verify_user in V.
      destruct (dict_get (users_db st) u) as [user|] eqn:G; [|discriminate].
      exists u, user. split; [reflexivity|].
      split; [now apply truthy_iff | exact G].
    + destruct (truthy u) eqn:Tu; simpl; [|exact Hinv].
      destruct (truthy mail && truthy pw && truthy confirm); simpl;
        [|exact Hinv].
      destruct (negb (String.eqb pw confirm)); simpl; [exact Hinv|].
      destruct (negb terms); simpl; [exact Hinv|].
      unfold create_user, dict_has.
      destruct (dict_get (users_db st) u) eqn:G; simpl;
        unfold session_ok; simpl; rewrite L.
      * split; [auto|]. split; [discriminate | exact Hnames].
      * split; [auto|]. split; [discriminate|].
        intros u' user'. destruct (string_dec u u') as [<- | N].
        -- intros _. now apply truthy_iff.
        -- rewrite dict_get_set_ne by exact N. apply Hnames.
Qed.

Lemma session_reachable_ok (events : list event) :
  session_ok (session events).
Proof.
  unfold session_after.
  assert (G : forall st,
             session_ok st -> session_ok (fold_left press events st)).
  { induction events as [|e rest IH]; intros st H; simpl; [exact H|].
    apply IH. now apply press_invariant. }
  apply G. unfold session_ok. simpl.
  split; [auto|]. split; discriminate.
Qed.

(** X19: in every state the session can reach, a session without login has
    an empty history and no current user, a session with login has a
    current user who is registered, and no account has an empty name. *)
Theorem session_invariant (events : list event) :
  let st := session events in
  (user_logged_in st = false ->
   analysis_history st = [] /\ current_user st = None)
  /\ (user_logged_in st = true ->
      exists u user, current_user st = Some u /\ u <> ""
                     /\ dict_get (users_db st) u = Some user)
  /\ (forall u user, dict_get (users_db st) u = Some user -> u <> "").
Proof. exact (session_reachable_ok events). Qed.

(** X20: the only way into a session is the login form with both fields
    filled and credentials that [verify_user] accepts; the session then
    belongs to that user and starts with an empty history, whoever used the
    application before. *)
Theorem login_requires_credentials (events : list event) (e : event) :
  let st := session events in
  let st' := press st e in
  user_logged_in st = false ->
  user_logged_in st' = true ->
  exists username pw,
    e = OnAuthPage (LoginSubmit username pw)
    /\ username <> "" /\ pw <> ""
    /\ verify (users_db st) username pw = (true, "Login successful")
    /\ current_user st' = Some username
    /\ analysis_history st' = [].
Proof.
  cbv zeta. intros L L'.
  destruct (session_reachable_ok events) as (Hout & _).
  destruct (Hout L) as (Hh & _).
  revert L'. unfold main. rewrite L. simpl.
  destruct e as [[u p | u p | u mail pw confirm terms now] | a]; simpl.
  - destruct (truthy u) eqn:Tu; simpl; [|congruence].
    destruct (truthy p) eqn:Tp; simpl; [|congruence].
    destruct (verify (users_db (session events)) u p) as [[] message] eqn:V;
      simpl; [|congruence].
    intros _. exists u, p. apply truthy_iff in Tu, Tp.
    assert (M : message = "Login successful").
    { unfold verify_user in V.
      destruct (dict_get _ u) as [[stored ? ?]|]; [|discriminate].
      destruct (String.eqb stored _); congruence. }
    subst message. repeat split; auto.
  - congruence.
  - destruct (truthy u && truthy mail && truthy pw && truthy confirm);
      simpl; [|congruence].
    destruct (negb (String.eqb pw confirm)); simpl; [congruence|].
    destruct (negb terms); simpl; [congruence|].
    unfold create_user.
    destruct (dict_has (users_db (session events)) u); simpl; congruence.
  - congruence.
Qed.

(** Logging out empties the history and forgets the current user, and
    keeps every account. *)
Theorem logout_clears_session (st : SessionState) :
  user_logged_in st = true ->
  let st' := press st (OnMainPage Logout) in
  user_logged_in st' = false
  /\ current_user st' = None
  /\ analysis_history st' = []
  /\ users_db st' = users_db st.
Proof. intros L. unfold main. rewrite L. simpl. auto. Qed.

End SessionProperties.

Lemma signup_creates_account_iff_witness :
  dict_get
    (users_db
       (fst (show_auth_page toy_digest initial_state
               (SignupSubmit "bob" "bob@example.org" "s3cret" "s3cret" true
                  "2024-01-01 12:00:00"))))
    "bob"
  = Some {| password := "sha:s3cret"; email := "bob@example.org";
            created_at := "2024-01-01 12:00:00" |}.
Proof.
  apply (signup_creates_account_iff toy_digest initial_state "bob"
           "bob@example.org" "s3cret" "s3cret" true "2024-01-01 12:00:00").
  repeat split; discriminate.
Defined.

Lemma credentials_keep_working_witness :
  verify_user toy_digest
    (users_db
       (fold_left (main toy_digest flat_sentiment one_sentence regex_words)
          [OnAuthPage (LoginSubmit "bob" "s3cret");
           OnMainPage (AnalyzeText "I feel sad." "2024-01-01 12:05:00");
           OnMainPage Logout;
           OnAuthPage (SignupSubmit "bob" "x@example.org" "other" "other"
                         true "2024-01-01 12:10:00")]
          {| analysis_history := [];
             user_logged_in := false;
             current_user := None;
             show_signup := false;
             users_db := [("bob", {| password := "sha:s3cret";
                                     email := "bob@example.org";
                                     created_at := "2024-01-01 12:00:00" |})]
          |}))
    "bob" "s3cret"
  = (true, "Login successful").
Proof.
  apply (credentials_keep_working toy_digest flat_sentiment one_sentence
           regex_words).
  reflexivity.
Defined.

Lemma session_invariant_witness :
  analysis_history
    (session_after toy_digest flat_sentiment one_sentence regex_words
       [OnAuthPage (SignupSubmit "bob" "bob@example.org" "s3cret" "s3cret"
                      true "2024-01-01 12:00:00");
        OnAuthPage (LoginSubmit "bob" "s3cret");
        OnMainPage (AnalyzeText "I feel sad." "2024-01-01 12:05:00");
        OnMainPage Logout])
  = [].
Proof.
  apply (session_invariant toy_digest flat_sentiment one_sentence
           regex_words).
  reflexivity.
Defined.

Lemma login_requires_credentials_witness :
  exists username pw,
    OnAuthPage (LoginSubmit "bob" "s3cret")
    = OnAuthPage (LoginSubmit username pw)
    /\ username <> "" /\ pw <> "".
Proof.
  destruct (login_requires_credentials toy_digest flat_sentiment one_sentence
              regex_words
              [OnAuthPage (SignupSubmit "bob" "bob@example.org" "s3cret"
                             "s3cret" true "2024-01-01 12:00:00")]
              (OnAuthPage (LoginSubmit "bob" "s3cret")) eq_refl eq_refl)
    as (username & pw & E & Hu & Hp & _).
  exists username, pw. auto.
Defined.

Lemma logout_clears_session_witness :
  analysis_history
    (main toy_digest flat_sentiment one_sentence regex_words
       {| analysis_history := [];
          user_logged_in := true;
          current_user := Some "bob";
          show_signup := false;
          users_db := [("bob", {| password := "sha:s3cret";
                                  email := "bob@example.org";
                                  created_at := "2024-01-01 12:00:00" |})] |}
       (OnMainPage Logout))
  = [].
Proof.
  apply (logout_clears_session toy_digest flat_sentiment one_sentence
           regex_words).
  reflexivity.
Defined.

(** ** The emoji and the charts *)

(** X21: the fallback emoji is shown exactly for a string that is none of
    the four band names, so never for a band computed by [get_severity];
    the four bands have four different emoji. *)
Theorem severity_emoji_cases :
  (forall severity,
     get_severity_emoji severity = "⚪"
     <-> ~ In severity ["Low"; "Mild"; "Moderate"; "High"])
  /\ (forall score,
        In (get_severity_emoji (get_severity score))
          ["🟢"; "🟡"; "🟠"; "🔴"])
  /\ (forall band1 band2,
        In band1 ["Low"; "Mild"; "Moderate"; "High"] ->
        In band2 ["Low"; "Mild"; "Moderate"; "High"] ->
        get_severity_emoji band1 = get_severity_emoji band2 ->
        band1 = band2).
Proof.
  split; [|split].
  - intros severity. unfold get_severity_emoji, emoji_map. cbn [dict_get].
    destruct (String.eqb "Low" severity) eqn:E1;
      [apply String.eqb_eq in E1; subst;
       split; [discriminate | intros N; exfalso; apply N; simpl; auto]|].
    destruct (String.eqb "Mild" severity) eqn:E2;
      [apply String.eqb_eq in E2; subst;
       split; [discriminate | intros N; exfalso; apply N; simpl; auto]|].
    destruct (String.eqb "Moderate" severity) eqn:E3;
      [apply String.eqb_eq in E3; subst;
       split; [discriminate | intros N; exfalso; apply N; simpl; auto]|].
    destruct (String.eqb "High" severity) eqn:E4;
      [apply String.eqb_eq in E4; subst;
       split; [discriminate | intros N; exfalso; apply N; simpl; auto]|].
    apply String.eqb_neq in E1, E2, E3, E4.
    split; [|reflexivity]. intros _ [H | [H | [H | [H | []]]]]; congruence.
  - intros score. unfold get_severity.
    destruct (Qle_bool 0.3 score); [simpl; auto|].
    destruct (Qle_bool 0.15 score); [simpl; auto|].
    destruct (Qle_bool 0.05 score); simpl; auto.
  - intros band1 band2 H1 H2.
    destruct H1 as [<- | [<- | [<- | [<- | []]]]];
      destruct H2 as [<- | [<- | [<- | [<- | []]]]];
      intros E; try reflexivity; vm_compute in E; discriminate E.
Qed.

(** The sentiment pie chart is missing exactly when the three shares
    add up to zero; otherwise its slices are the positive, neutral and
    negative share in that order, one label and one colour each. *)
Theorem sentiment_pie_chart_cases (scores : SentimentScores) :
  (create_sentiment_pie_chart scores = None
   <-> (pos scores + neu scores + neg scores == 0)%Q)
  /\ (forall fig, create_sentiment_pie_chart scores = Some fig ->
        values fig = [pos scores; neu scores; neg scores]
        /\ labels fig = ["Positive"; "Neutral"; "Negative"]
        /\ List.length (marker_colors fig) = 3).
Proof.
  unfold create_sentiment_pie_chart.
  destruct (Qeq_bool (pos scores + neu scores + neg scores) 0) eqn:E.
  - apply Qeq_bool_iff in E. split; [tauto | discriminate].
  - split.
    + split; [discriminate|]. intros H. apply Qeq_bool_iff in H. congruence.
    + intros fig [= <-]. simpl. auto.
Qed.

Lemma sentiment_pie_chart_cases_witness :
  values {| labels := ["Positive"; "Neutral"; "Negative"];
            values := [0; 1; 0]%Q;
            marker_colors := ["#4CAF50"; "#FFC107"; "#F44336"];
            hole := 0.3;
            pie_layout := {| title := "Sentiment Distribution";
                             xaxis_title := None;
                             yaxis_title := None;
                             yaxis_range := None;
                             height := 400;
                             font_family := "Inter, sans-serif";
                             font_size := 12 |} |}
  = [pos neutral_sentiment; neu neutral_sentiment; neg neutral_sentiment].
Proof.
  apply (sentiment_pie_chart_cases neutral_sentiment). reflexivity.
Defined.

Section ChartProperties.

Variable polarity_scores : string -> outcome SentimentScores.
Variable sent_tokenize : string -> outcome (list string).
Variable word_tokenize : string -> outcome (list string).
Variable format_2f : Q -> string.

Local Abbreviation analyze :=
  (analyze_text polarity_scores sent_tokenize word_tokenize).

(** X22: when the sentiment analyzer raises, the record still gets its pie
    chart: one full neutral slice and two empty ones. *)
Theorem pie_chart_after_scorer_failure
    (input now : string) (r : AnalysisRecord) :
  polarity_scores input = Raised ->
  analyze input now = Returned (Some r) ->
  exists fig,
    create_sentiment_pie_chart (sentiment r) = Some fig
    /\ values fig = [0; 1; 0]%Q.
Proof.
  intros F H. apply analyze_text_returned in H. cbv zeta in H.
  destruct H as (_ & _ & _ & _ & Hs & _). rewrite F in Hs. rewrite Hs.
  eexists. split; reflexivity.
Qed.

(** X23: the bar chart of a record has four bars, one per category with a
    colour and a label each, and every bar fits the axis, which runs from
    0 to 1. *)
Theorem severity_chart_within_axis
    (input now : string) (r : AnalysisRecord) :
  analyze input now = Returned (Some r) ->
  let fig := create_severity_chart format_2f r in
  bar_x fig = ["Depression"; "Anxiety"; "Stress"; "Positive"]
  /\ bar_y fig = map score (categories r)
  /\ List.length (marker_color fig) = 4
  /\ bar_text fig = map format_2f (bar_y fig)
  /\ yaxis_range (bar_layout fig) = Some (0, 1)%Q
  /\ Forall (fun v => (0 <= v <= 1)%Q) (bar_y fig).
Proof.
  intros H. apply analyze_text_returned in H. cbv zeta in H.
  destruct H as (_ & _ & _ & _ & _ & Hd & Ha & Hs & Hp & _).
  cbv zeta. unfold create_severity_chart, categories.
  cbn [bar_x bar_y marker_color bar_text bar_layout yaxis_range map].
  do 5 (split; [reflexivity|]).
  rewrite Hd, Ha, Hs, Hp. cbn [score].
  repeat constructor; apply severity_score_bounds.
Qed.

End ChartProperties.

Lemma pie_chart_after_scorer_failure_witness :
  exists r fig,
    analyze_text unavailable one_sentence regex_words
      "I feel sad." "2024-01-01 12:00:00" = Returned (Some r)
    /\ create_sentiment_pie_chart (sentiment r) = Some fig.
Proof.
  eexists. 
  destruct (pie_chart_after_scorer_failure unavailable one_sentence
              regex_words "I feel sad." "2024-01-01 12:00:00" _
              eq_refl eq_refl) as (fig & H & _).
  exists fig. split; [reflexivity | exact H].
Defined.

Lemma severity_chart_within_axis_witness :
  exists r,
    analyze_text flat_sentiment one_sentence regex_words
      "I feel sad." "2024-01-01 12:00:00" = Returned (Some r)
    /\ Forall (fun v => (0 <= v <= 1)%Q)
         (bar_y (create_severity_chart toy_format r)).
Proof.
  eexists. split; [vm_compute; reflexivity|].
  apply (severity_chart_within_axis flat_sentiment one_sentence regex_words
           toy_format "I feel sad." "2024-01-01 12:00:00" _ eq_refl).
Defined.

(** ** The reports *)

Lemma nth_error_enumerate {A : Type} (l : list A) (start i : nat) :
  nth_error (enumerate start l) i
  = option_map (fun a => (start + i, a)) (nth_error l i).
Proof.
  unfold enumerate. revert start i.
  induction l as [|a l IH]; intros start i; simpl.
  - now destruct i.
  - destruct i as [|i]; simpl.
    + now rewrite Nat.add_0_r.
    + rewrite IH. destruct (nth_error l i); simpl; [|reflexivity].
      do 2 f_equal. lia.
Qed.

Lemma enumerate_length {A : Type} (l : list A) (start : nat) :
  List.length (enumerate start l) = List.length l.
Proof.
  unfold enumerate. rewrite length_combine, length_seq. lia.
Qed.

Lemma enumerate_snoc {A : Type} (l : list A) (a : A) (start : nat) :
  enumerate start (l ++ [a])
  = enumerate start l ++ [(start + List.length l, a)].
Proof.
  unfold enumerate. revert start.
  induction l as [|b l IH]; intros start; simpl.
  - now rewrite Nat.add_0_r.
  - rewrite IH.
    replace (S start + List.length l) with (start + S (List.length l))
      by lia.
    reflexivity.
Qed.

Lemma last_items_length {A : Type} (n : nat) (l : list A) :
  List.length (last_items n l) = Nat.min n (List.length l).
Proof. unfold last_items. rewrite length_skipn. lia. Qed.

(** X24: the history panel shows the last ten analyses at most, the newest
    first, and the number in the label of an entry is the position of that
    analysis in the whole history, counted from 1. *)
Theorem recent_analyses_numbering (history : list AnalysisRecord) :
  let total := List.length history in
  List.length (recent_analyses history) = Nat.min 10 total
  /\ forall i, i < Nat.min 10 total ->
       exists analysis,
         nth_error history (total - i - 1) = Some analysis
         /\ nth_error (recent_analyses history) i
            = Some (recent_entry total (i + 1, analysis))
         /\ fst (recent_entry total (i + 1, analysis))
            = ("Analysis " ++ str_of_nat (total - i) ++ " - "
               ++ timestamp analysis)%string.
Proof.
  cbv zeta. unfold recent_analyses. split.
  - rewrite length_map, enumerate_length, length_rev, last_items_length.
    reflexivity.
  - intros i Hi.
    assert (L := @last_items_length AnalysisRecord 10 history).
    destruct (nth_error history (List.length history - i - 1))
      as [analysis|] eqn:E.
    2:{ apply nth_error_None in E. lia. }
    exists analysis. split; [reflexivity|]. split.
    + rewrite nth_error_map, nth_error_enumerate, nth_error_rev.
      rewrite L. destruct (Nat.ltb_spec i (Nat.min 10 (List.length history)));
        [|lia].
      unfold last_items. rewrite nth_error_skipn.
      replace (List.length history - 10
               + (Nat.min 10 (List.length history) - S i))
        with (List.length history - i - 1) by lia.
      rewrite E. cbn [option_map].
      replace (1 + i) with (i + 1) by lia. reflexivity.
    + unfold recent_entry. cbn [fst].
      replace (List.length history - (i + 1) + 1)
        with (List.length history - i) by lia.
      reflexivity.
Qed.

Lemma recent_analyses_numbering_witness :
  exists analysis,
    nth_error sample_history (List.length sample_history - 0 - 1)
    = Some analysis
    /\ fst (recent_entry (List.length sample_history) (0 + 1, analysis))
       = ("Analysis " ++ str_of_nat (List.length sample_history - 0) ++ " - "
          ++ timestamp analysis)%string.
Proof.
  assert (H : 0 < Nat.min 10 (List.length sample_history))
    by (vm_compute; lia).
  destruct (proj2 (recent_analyses_numbering sample_history) 0 H)
    as (analysis & E & _ & L).
  exists analysis. split; [exact E | exact L].
Defined.

Example reports_of_sample_history :
  map fst (recent_analyses sample_history)
  = ["Analysis 2 - 2024-01-02 09:00:00"; "Analysis 1 - 2024-01-01 12:00:00"]
  /\ List.length (export_results_pdf_calls sample_history "now") = 24
  /\ get_severity_emoji "High" = "🔴"
  /\ get_severity_emoji "high" = "⚪".
Proof. repeat split; vm_compute; reflexivity. Qed.

Lemma text_report_step_append (text_data : string)
    (item : nat * AnalysisRecord) :
  text_report_step text_data item
  = (text_data ++ text_report_step "" item)%string.
Proof.
  destruct item as [i analysis]. unfold text_report_step.
  rewrite !append_assoc. reflexivity.
Qed.

(** X25: the text report lists every analysis of the history, numbered from
    1 in the order of the history: the report of a history with one more
    analysis is the report of the history followed by the block of that
    analysis, numbered with the new length; the empty history gives the
    empty report. *)
Theorem text_report_grows (history : list AnalysisRecord)
    (analysis : AnalysisRecord) :
  text_report [] = ""
  /\ text_report (history ++ [analysis])
     = (text_report history
        ++ text_report_step "" (List.length history + 1, analysis))%string.
Proof.
  split; [reflexivity|]. unfold text_report.
  rewrite enumerate_snoc, fold_left_app. cbn [fold_left].
  rewrite text_report_step_append.
  replace (1 + List.length history) with (List.length history + 1) by lia.
  reflexivity.
Qed.

Lemma export_fold (items : list (nat * AnalysisRecord))
    (pdf : list fpdf_call) :
  fold_left export_step items pdf
  = pdf ++ flat_map (export_step []) items.
Proof.
  revert pdf. induction items as [|[i a] items IH]; intros pdf; simpl.
  - now rewrite app_nil_r.
  - rewrite IH. unfold export_step. simpl. rewrite <- app_assoc. reflexivity.
Qed.

Lemma export_block (items : list (nat * AnalysisRecord)) (i : nat)
    (item : nat * AnalysisRecord) :
  nth_error items i = Some item ->
  firstn 8 (skipn (8 * i) (flat_map (export_step []) items))
  = export_step [] item.
Proof.
  revert i. induction items as [|[k a] items IH]; intros i H.
  - destruct i; discriminate.
  - destruct i as [|i].
    + injection H as <-. reflexivity.
    + simpl in H. replace (8 * S i) with (8 * i + 8) by lia.
      cbn [flat_map]. rewrite <- (IH i H).
      unfold export_step at 1. cbn [app]. rewrite <- skipn_skipn.
      reflexivity.
Qed.

(** X26: the PDF report has a heading of eight calls and then one block of
    eight calls for each of the last ten analyses at most, oldest first;
    the block numbered [i + 1] is the one of the analysis at position
    [total - min(10, total) + i + 1] of the history, so the numbers of the
    PDF start again at 1 when the history holds more than ten analyses. *)
Theorem export_results_pdf_blocks (history : list AnalysisRecord)
    (now : string) :
  let total := List.length history in
  let shown := Nat.min 10 total in
  let pdf := export_results_pdf_calls history now in
  List.length pdf = 8 + 8 * shown
  /\ forall i, i < shown ->
       exists analysis,
         nth_error history (total - shown + i) = Some analysis
         /\ firstn 8 (skipn (8 + 8 * i) pdf)
            = export_step [] (i + 1, analysis).
Proof.
  cbv zeta. unfold export_results_pdf_calls. rewrite export_fold.
  assert (L := @last_items_length AnalysisRecord 10 history).
  split.
  - rewrite length_app. cbn [List.length]. f_equal.
    rewrite <- L, <- (enumerate_length (last_items 10 history) 1).
    generalize (enumerate 1 (last_items 10 history)).
    intros items. induction items as [|[k a] items IH]; [reflexivity|].
    cbn [flat_map]. rewrite length_app, IH.
    unfold export_step. cbn [app List.length]. lia.
  - intros i Hi.
    destruct (nth_error history
                (List.length history - Nat.min 10 (List.length history) + i))
      as [analysis|] eqn:E.
    2:{ apply nth_error_None in E. lia. }
    exists analysis. split; [reflexivity|].
    replace (8 + 8 * i) with (8 * i + 8) by lia.
    rewrite <- skipn_skipn. cbn [skipn app].
    apply export_block.
    rewrite nth_error_enumerate. unfold last_items. rewrite nth_error_skipn.
    replace (List.length history - 10 + i)
      with (List.length history - Nat.min 10 (List.length history) + i)
      by lia.
    rewrite E. cbn [option_map].
    replace (1 + i) with (i + 1) by lia. reflexivity.
Qed.

(** ** The overall score in double precision *)

Section DoublePrecision.

Variable polarity_scores : string -> outcome SentimentScores.
Variable sent_tokenize : string -> outcome (list string).
Variable word_tokenize : string -> outcome (list string).

Local Abbreviation analyze :=
  (F64.analyze_text polarity_scores sent_tokenize word_tokenize).
Local Abbreviation step :=
  (F64.main_step polarity_scores sent_tokenize word_tokenize).
Local Abbreviation session :=
  (F64.run polarity_scores sent_tokenize word_tokenize).

(** The rounded mean of the three negative scores of a record: two
    additions from left to right and a division by 3, each rounded. *)
Local Abbreviation rounded_mean r :=
  (F64.div
     (F64.add (F64.add (F64.score (F64.depression r))
                 (F64.score (F64.anxiety r)))
        (F64.score (F64.stress r)))
     (F64.of_nat 3)).

Lemma f64_analyze_text_returned (input now : string)
    (r : F64.AnalysisRecord) :
  analyze input now = Returned (Some r) ->
  let total_words :=
    List.length (snd (safe_tokenize sent_tokenize word_tokenize input)) in
  let result keywords :=
    {| F64.score :=
         F64.severity_score (keyword_count keywords input) total_words;
       F64.severity :=
         F64.get_severity
           (F64.severity_score (keyword_count keywords input) total_words);
       F64.count := keyword_count keywords input |} in
  blank input = false
  /\ F64.depression r = result depression_keywords
  /\ F64.anxiety r = result anxiety_keywords
  /\ F64.stress r = result stress_keywords
  /\ F64.positive r = result positive_keywords
  /\ F64.overall_score r = rounded_mean r
  /\ F64.overall_assessment r
     = F64.get_overall_assessment (F64.overall_score r)
         (F64.score (F64.positive r)).
Proof.
  unfold F64.analyze_text. rewrite strip_truthy, negb_involutive.
  destruct (blank input); [discriminate|].
  destruct (safe_tokenize sent_tokenize word_tokenize input)
    as [sentences words]; simpl.
  destruct (find_concerning_phrases sent_tokenize input) as [phrases|];
    [|discriminate].
  intros [= <-]. repeat split.
Qed.

Lemma f64_run_history (P : F64.AnalysisRecord -> Prop)
    (actions : list action) :
  (forall input now r, analyze input now = Returned (Some r) -> P r) ->
  forall history, Forall P history -> Forall P (session history actions).
Proof.
  intros HP. induction actions as [|a rest IH]; intros history Hh.
  - exact Hh.
  - cbn [F64.run].
    destruct (step history a) as [[h msg]|] eqn:E; [|now apply IH].
    apply IH. revert E. destruct a as [user_text now| |]; cbn [F64.main_step].
    + destruct (truthy (strip user_text)).
      * destruct (analyze user_text now) as [[r|]|] eqn:A.
        -- intros [= <- _]. apply Forall_app. split; [exact Hh|].
           constructor; [exact (HP _ _ _ A) | constructor].
        -- now intros [= <- _].
        -- discriminate.
      * now intros [= <- _].
    + intros [= <- _]. constructor.
    + intros [= <- _]. constructor.
Qed.

(** C5, as the code has it: the overall score of a record is the
    double-precision value of [(depression + anxiety + stress) / 3] on the
    three negative scores stored in the same record, the two additions and
    the division each rounded to the nearest double; the assessment is the
    one of that stored value; and so it is for every record of the history,
    after any sequence of button presses. *)
Theorem overall_score_is_rounded_mean :
  (forall input now r,
     analyze input now = Returned (Some r) ->
     F64.overall_score r = rounded_mean r
     /\ F64.overall_assessment r
        = F64.get_overall_assessment (F64.overall_score r)
            (F64.score (F64.positive r)))
  /\ (forall actions,
        Forall (fun r => F64.overall_score r = rounded_mean r)
          (session [] actions)).
Proof.
  split.
  - intros input now r H. apply f64_analyze_text_returned in H.
    cbv zeta in H. destruct H as (_ & _ & _ & _ & _ & Ho & Hv).
    split; [exact Ho | exact Hv].
  - intros actions. apply f64_run_history; [|constructor].
    intros input now r H. apply f64_analyze_text_returned in H.
    cbv zeta in H. destruct H as (_ & _ & _ & _ & _ & Ho & _). exact Ho.
Qed.

End DoublePrecision.

Lemma overall_score_is_rounded_mean_witness :
  exists r,
    F64.analyze_text flat_sentiment one_sentence regex_words
      "I feel sad and anxious." "2024-01-01 12:00:00" = Returned (Some r)
    /\ F64.overall_score r
       = F64.div
           (F64.add (F64.add (F64.score (F64.depression r))
                       (F64.score (F64.anxiety r)))
              (F64.score (F64.stress r)))
           (F64.of_nat 3).
Proof.
  eexists. split; [vm_compute; reflexivity|].
  eapply (proj1 (overall_score_is_rounded_mean flat_sentiment one_sentence
                   regex_words)
            "I feel sad and anxious." "2024-01-01 12:00:00").
  vm_compute. reflexivity.
Defined.

(** The literals and the operations are those of the machine: 0.15 and
    0.05 as doubles, 200 * 0.1 = 20.0, and 0.1 + 0.2 above 0.3. *)
Example f64_samples :
  F64.lit 15 100 = SpecFloat.S754_finite false 5404319552844595 (-55)
  /\ F64.lit 5 100 = SpecFloat.S754_finite false 7205759403792794 (-57)
  /\ F64.mul (F64.of_nat 200) (F64.lit 1 10) = F64.of_nat 20
  /\ F64.severity_score 3 200 = F64.lit 15 100
  /\ F64.ltb (F64.lit 3 10) (F64.add (F64.lit 1 10) (F64.lit 2 10)) = true.
Proof. repeat split; vm_compute; reflexivity. Qed.

(** C5 as stated fails: on a text of two hundred words with three
    depression keywords the stored scores are 0.15, 0 and 0, and the stored
    overall score is the double just below 0.05, which is not their mean;
    the assessment is then the neutral one, not the mild one. *)
Lemma overall_score_not_exact_mean :
  exists r,
    F64.analyze_text flat_sentiment one_sentence regex_words
      rounding_text "2024-01-01 12:00:00" = Returned (Some r)
    /\ F64.score (F64.depression r) = F64.lit 15 100
    /\ F64.score (F64.anxiety r) = F64.of_nat 0
    /\ F64.score (F64.stress r) = F64.of_nat 0
    /\ F64.overall_score r
       = SpecFloat.S754_finite false 7205759403792793 (-57)
    /\ ~ (F64.to_Q (F64.overall_score r)
          == (F64.to_Q (F64.score (F64.depression r))
              + F64.to_Q (F64.score (F64.anxiety r))
              + F64.to_Q (F64.score (F64.stress r))) / 3)%Q
    /\ (F64.to_Q (F64.overall_score r) < 0.05)%Q
    /\ F64.overall_assessment r = "Neutral state - maintain healthy habits".
Proof.
  eexists. split; [vm_compute; reflexivity|].
  do 4 (split; [vm_compute; reflexivity|]).
  split; [|split; [vm_compute; reflexivity | reflexivity]].
  intros H. vm_compute in H. discriminate H.
Qed.
